(** * Versioned CityJSON: the versioning data model of [versioning.py]

    A shallow embedding of the classes [Versioning] and [Version] and the
    properties of reference resolution, parent lookup, the reverse indices
    and the [message] setter; then of [VersionedCityJSON], of
    [Version.__repr__] and of the script [cjv.py], with the properties of
    their runs.

    Modelling choices.
    - The document is what [json.load] returns: a tree of dicts, lists and
      scalars.  A Python dict is an association list in insertion order
      (iteration order is observable through [Version.branches]); [d[k]]
      reads the first entry with key [k], and a loaded dict has no second one.
    - The versioning block has the three mappings [versions], [branches] and
      [tags]; a version's stored data is a JSON object, a branch or tag
      target is a string.  Blocks lacking one of the three mappings are
      outside the model ([cjv.py] leaves their validation as a TODO).
    - Because the loaded document is a tree, a reference to the dict stored
      under [versions[k]] is the key [k]: a [Version] view holds that key,
      and every accessor reads the current store through it.  The [message]
      setter therefore writes the store, and the write is seen by every view
      of the same version.
    - Exceptions are values: a method returns [Ok a] or [Raise e]. *)

From Stdlib Require Import String List Bool Lia.
Set Warnings "-register-all".
Import ListNotations.
Open Scope string_scope.

(** ** JSON values *)

Inductive json : Type :=
| JNull
| JBool (b : bool)
| JNum (lexeme : string)   (* numbers are never computed on: kept as written *)
| JStr (s : string)
| JArr (items : list json)
| JObj (members : list (string * json)).

(** ** Exceptions and results *)

Inductive exn : Type :=
| KeyError (key : json)       (* [d[k]] with [k] missing; carries the key *)
| IndexError (msg : string)   (* raised by [resolve_ref] *)
| TypeError.                  (* iteration over a scalar, unhashable key *)

Inductive result (A : Type) : Type :=
| Ok (a : A)
| Raise (e : exn).
Arguments Ok {A} a.
Arguments Raise {A} e.

Definition bind {A B : Type} (r : result A) (k : A -> result B) : result B :=
  match r with
  | Ok a => k a
  | Raise e => Raise e
  end.

Notation "x <- r ;; k" := (bind r (fun x => k))
  (at level 61, r at next level, right associativity).

(** A comprehension [[f x for x in xs]]: elements are evaluated left to
    right and the first exception aborts the whole comprehension. *)
Fixpoint comprehension {A B : Type} (f : A -> result B) (xs : list A)
  : result (list B) :=
  match xs with
  | [] => Ok []
  | x :: rest =>
      y <- f x ;;
      ys <- comprehension f rest ;;
      Ok (y :: ys)
  end.

(** ** Python dicts with string keys *)

Definition dict (A : Type) : Type := list (string * A).

Module Dict.
Section Ops.
Context {A : Type}.

Fixpoint get (k : string) (d : dict A) : option A :=
  match d with
  | [] => None
  | (k', a) :: rest => if String.eqb k k' then Some a else get k rest
  end.

(** [k in d] *)
Definition contains (k : string) (d : dict A) : bool :=
  match get k d with
  | Some _ => true
  | None => false
  end.

(** [d[k]] *)
Definition getitem (d : dict A) (k : string) : result A :=
  match get k d with
  | Some a => Ok a
  | None => Raise (KeyError (JStr k))
  end.

(** [d[key]] for an arbitrary JSON value used as the key.  All keys of
    [d] are strings, so a hashable non-string is simply missing; lists
    and dicts are unhashable. *)
Definition subscript (d : dict A) (key : json) : result A :=
  match key with
  | JStr k => getitem d k
  | JArr _ | JObj _ => Raise TypeError
  | JNull | JBool _ | JNum _ => Raise (KeyError key)
  end.

(** [d[k] = a]: an existing key keeps its position, a new one is
    appended. *)
Fixpoint setitem (k : string) (a : A) (d : dict A) : dict A :=
  match d with
  | [] => [(k, a)]
  | (k', a') :: rest =>
      if String.eqb k k' then (k', a) :: rest
      else (k', a') :: setitem k a rest
  end.

(** In-place mutation of the object stored under [k]: the write through
    a reference to [d[k]]. *)
Fixpoint update (k : string) (f : A -> A) (d : dict A) : dict A :=
  match d with
  | [] => []
  | (k', a) :: rest =>
      if String.eqb k k' then (k', f a) :: rest
      else (k', a) :: update k f rest
  end.

Definition keys (d : dict A) : list string := map fst d.
End Ops.
End Dict.

(** [for v in x] over a JSON value. *)
Definition iterate (x : json) : result (list json) :=
  match x with
  | JArr items => Ok items
  | JStr s => Ok (map (fun c => JStr (String c EmptyString)) (list_ascii_of_string s))
  | JObj members => Ok (map (fun kv => JStr (fst kv)) members)
  | JNull | JBool _ | JNum _ => Raise TypeError
  end.

(** ** The store and the views *)

(** The [_json] block of a [Versioning] object. *)
Record Versioning : Type := {
  json_versions : dict (dict json);   (* [_json["versions"]] *)
  json_branches : dict string;        (* [_json["branches"]] *)
  json_tags : dict string             (* [_json["tags"]] *)
}.

(** A [Version] object.  [_json] is the reference to the stored data dict,
    that is the key of [json_versions] it is stored under; [_versioning] is
    the store itself and is passed to the methods. *)
Record Version : Type := {
  _json : string;
  _version_name : string
}.

Module Versioning.

(** [{k : Version(self, j, k) for k, j in self._json["versions"].items()}] *)
Definition versions (self : Versioning) : dict Version :=
  map (fun kj => (fst kj, {| _json := fst kj; _version_name := fst kj |}))
      (json_versions self).

Definition resolve_ref (self : Versioning) (ref : string) : result string :=
  if Dict.contains ref (versions self) then Ok ref
  else if Dict.contains ref (json_branches self) then
    Dict.getitem (json_branches self) ref
  else if Dict.contains ref (json_tags self) then
    Dict.getitem (json_tags self) ref
  else Raise (IndexError "Ref is not available in versioning.").

Definition get_version_from_ref (self : Versioning) (ref : string)
  : result Version :=
  name <- resolve_ref self ref ;;
  Dict.getitem (versions self) name.

(** The entry [k : self.versions[j]] of the two comprehensions below, for
    an item [(k, j)]. *)
Definition index_entry (self : Versioning) (kj : string * string)
  : result (string * Version) :=
  v <- Dict.getitem (versions self) (snd kj) ;;
  Ok (fst kj, v).

(** [{k : self.versions[j] for k, j in self._json["branches"].items()}] *)
Definition branches (self : Versioning) : result (dict Version) :=
  comprehension (index_entry self) (json_branches self).

(** [{k : self.versions[j] for k, j in self._json["tags"].items()}] *)
Definition tags (self : Versioning) : result (dict Version) :=
  comprehension (index_entry self) (json_tags self).

End Versioning.

Module Version.

(** The dict [self._json] refers to, in the current store.  [None] only
    for a view of a version the store does not hold, which [versions]
    never builds. *)
Definition deref (vg : Versioning) (self : Version) : option (dict json) :=
  Dict.get (_json self) (json_versions vg).

Definition name (self : Version) : string := _version_name self.

Definition author (vg : Versioning) (self : Version) : option (result json) :=
  option_map (fun self_json => Dict.getitem self_json "author") (deref vg self).

Definition message (vg : Versioning) (self : Version) : option (result json) :=
  option_map (fun self_json => Dict.getitem self_json "message") (deref vg self).

(** [self._json["message"] = value]: a write into the stored dict. *)
Definition set_message (vg : Versioning) (self : Version) (value : json)
  : Versioning :=
  {| json_versions :=
       Dict.update (_json self) (Dict.setitem "message" value) (json_versions vg);
     json_branches := json_branches vg;
     json_tags := json_tags vg |}.

Definition date (vg : Versioning) (self : Version) : option (result json) :=
  option_map (fun self_json => Dict.getitem self_json "date") (deref vg self).

Definition has_parents (vg : Versioning) (self : Version) : option bool :=
  option_map (fun self_json => Dict.contains "parents" self_json) (deref vg self).

Definition parents (vg : Versioning) (self : Version)
  : option (result (list Version)) :=
  match has_parents vg self with
  | None => None
  | Some true =>
      option_map
        (fun self_json =>
           stored <- Dict.getitem self_json "parents" ;;
           vs <- iterate stored ;;
           comprehension (fun v => Dict.subscript (Versioning.versions vg) v) vs)
        (deref vg self)
  | Some false => Some (Ok [])
  end.

Definition branches (vg : Versioning) (self : Version) : result (list string) :=
  bs <- Versioning.branches vg ;;
  Ok (map fst
        (filter (fun bv => String.eqb (name (snd bv)) (_version_name self)) bs)).

Definition tags (vg : Versioning) (self : Version) : result (list string) :=
  ts <- Versioning.tags vg ;;
  Ok (map fst
        (filter (fun tv => String.eqb (name (snd tv)) (_version_name self)) ts)).

End Version.

(** ** The error kinds of the specification

    [versioning.py] defines no exception class of its own.  The one failure
    it raises itself is the [IndexError] at the end of [resolve_ref]: the
    unresolved reference.  A name that is looked up in [versions] and is not
    there surfaces as the [KeyError] of the dict: the dangling reference.
    The two classes are distinct. *)

Definition is_unresolved_reference (e : exn) : bool :=
  match e with
  | IndexError _ => true
  | _ => false
  end.

Definition is_dangling_reference (e : exn) : bool :=
  match e with
  | KeyError _ => true
  | _ => false
  end.

(** ** Document invariants

    What the data model asks of a document: keys are unique, every branch,
    tag and parent names a stored version, and the parent relation has no
    cycle (some ranking of the version names decreases along every parent
    link). *)

Definition is_key {A : Type} (k : string) (d : dict A) : Prop :=
  In k (Dict.keys d).

Definition stored_parents (data : dict json) : list json :=
  match Dict.get "parents" data with
  | Some (JArr items) => items
  | _ => []
  end.

Definition targets_present (vg : Versioning) (refs : dict string) : Prop :=
  forall k n, Dict.get k refs = Some n -> is_key n (json_versions vg).

Definition parents_present (vg : Versioning) : Prop :=
  forall k data p,
    Dict.get k (json_versions vg) = Some data ->
    In p (stored_parents data) ->
    exists n, p = JStr n /\ is_key n (json_versions vg).

Definition acyclic (vg : Versioning) : Prop :=
  exists rank : string -> nat,
    forall k data n,
      Dict.get k (json_versions vg) = Some data ->
      In (JStr n) (stored_parents data) ->
      rank n < rank k.

Record well_formed (vg : Versioning) : Prop := {
  wf_versions_unique : NoDup (Dict.keys (json_versions vg));
  wf_branches_unique : NoDup (Dict.keys (json_branches vg));
  wf_tags_unique : NoDup (Dict.keys (json_tags vg));
  wf_branches : targets_present vg (json_branches vg);
  wf_tags : targets_present vg (json_tags vg);
  wf_parents : parents_present vg;
  wf_acyclic : acyclic vg
}.

(** ** Sample documents *)

Definition version_A : dict json :=
  [("author", JStr "ann"); ("message", JStr "root");
   ("date", JStr "2020-01-01"); ("parents", JArr []);
   ("objects", JObj [])].

Definition version_B : dict json :=
  [("author", JStr "bob"); ("message", JStr "second");
   ("date", JStr "2020-01-02"); ("parents", JArr [JStr "A"]);
   ("objects", JObj [])].

(** A root version in the other form: no "parents" entry at all. *)
Definition version_R : dict json :=
  [("author", JStr "ann"); ("message", JStr "init");
   ("date", JStr "2019-12-31"); ("objects", JObj [])].

(** Versions A and B, branch main -> B, tag v1 -> A. *)
Definition scenario : Versioning :=
  {| json_versions := [("A", version_A); ("B", version_B)];
     json_branches := [("main", "B")];
     json_tags := [("v1", "A")] |}.

(** As [scenario], with a branch and a tag spelled like version A, and a
    tag spelled like branch main. *)
Definition shadowed : Versioning :=
  {| json_versions := [("A", version_A); ("B", version_B)];
     json_branches := [("main", "B"); ("A", "B")];
     json_tags := [("v1", "A"); ("main", "A")] |}.

(** As [scenario], with the branch ghost -> Z and no version Z. *)
Definition ghost_doc : Versioning :=
  {| json_versions := [("A", version_A); ("B", version_B)];
     json_branches := [("main", "B"); ("ghost", "Z")];
     json_tags := [("v1", "A")] |}.

(** As [scenario], with the tag lost -> Y and no version Y. *)
Definition ghost_tag_doc : Versioning :=
  {| json_versions := [("A", version_A); ("B", version_B)];
     json_branches := [("main", "B")];
     json_tags := [("v1", "A"); ("lost", "Y")] |}.

(** A history whose root has no "parents" entry: R, then C with parent R;
    branch main -> C. *)
Definition version_C : dict json :=
  [("author", JStr "cy"); ("message", JStr "child");
   ("date", JStr "2020-01-03"); ("parents", JArr [JStr "R"]);
   ("objects", JObj [])].

Definition rooted : Versioning :=
  {| json_versions := [("R", version_R); ("C", version_C)];
     json_branches := [("main", "C")];
     json_tags := [] |}.

(** Version M names two parents, the second of which, "main", is a branch
    name and not a version name. *)
Definition version_M : dict json :=
  [("author", JStr "mo"); ("message", JStr "merge");
   ("date", JStr "2020-01-04"); ("parents", JArr [JStr "A"; JStr "main"]);
   ("objects", JObj [])].

Definition aliased_parent : Versioning :=
  {| json_versions := [("A", version_A); ("B", version_B); ("M", version_M)];
     json_branches := [("main", "B")];
     json_tags := [] |}.

(** The view [Version(self, j, k)] that [versions] builds for the key [k]. *)
Definition stored_view (k : string) : Version :=
  {| _json := k; _version_name := k |}.

(** ** The rest of [versioning.py] and the script [cjv.py]

    What lies outside the two files is taken as given: the command factory
    of [commands], [utils.create_vcityjson], colorama's [Fore.RED], Python's
    [str] of a dict, and the file system as [open] and [json.load] see it. *)

(** What [open(path)] followed by [json.load] finds. *)
Inductive file_content : Type :=
| NoFile                (* [open] raises *)
| NotJson               (* [open] succeeds, [json.load] raises *)
| Json (j : json).      (* [json.load] returns [j] *)

Record World : Type := {
  command : Type;
  (* [commands.factory.get_command(command_name, **args)]; [None] is
     Python's [None] *)
  get_command : string -> dict json -> option command;
  Fore_RED : string;
  files : string -> file_content;
  create_vcityjson : json;
  py_str : dict json -> string
}.

(** [del d[k]] *)
Fixpoint dict_delitem {A : Type} (k : string) (d : dict A) : result (dict A) :=
  match d with
  | [] => Raise (KeyError (JStr k))
  | (k', a) :: rest =>
      if String.eqb k k' then Ok rest
      else rest' <- dict_delitem k rest ;; Ok ((k', a) :: rest')
  end.

(** [needle in hay] on two strings. *)
Fixpoint is_substring (needle hay : string) : bool :=
  String.prefix needle hay
  || match hay with
     | EmptyString => false
     | String _ rest => is_substring needle rest
     end.

Definition is_str (s : string) (x : json) : bool :=
  match x with
  | JStr s' => String.eqb s s'
  | _ => false
  end.

(** [s in x] for a string [s] and a loaded JSON value [x]: key test on a
    dict, element test on a list, substring test on a string. *)
Definition json_contains (s : string) (x : json) : result bool :=
  match x with
  | JObj members => Ok (Dict.contains s members)
  | JArr items => Ok (existsb (is_str s) items)
  | JStr hay => Ok (is_substring s hay)
  | JNull | JBool _ | JNum _ => Raise TypeError
  end.

(** [x[k]] for a string [k] and a loaded JSON value [x]: only a dict takes
    a string subscript. *)
Definition json_subscript (x : json) (k : string) : result json :=
  match x with
  | JObj members => Dict.getitem members k
  | JNull | JBool _ | JNum _ | JStr _ | JArr _ => Raise TypeError
  end.

(** [Version.__repr__]: the stored data without its "objects", as text.
    The deletion is done on a copy. *)
Definition Version_repr (w : World) (vg : Versioning) (self : Version)
  : option (result string) :=
  option_map
    (fun self_json =>
       repr_dict <- dict_delitem "objects" self_json ;;
       Ok (py_str w repr_dict))
    (Version.deref vg self).

(** *** Runs with effects

    A run is the list of its effects in order, and then either a value or
    the way it stopped. *)

Inductive event (w : World) : Type :=
| Print (line : string)
| Open (path : string)
| Close (path : string)
| Execute (c : command w).
Arguments Print {w} line.
Arguments Open {w} path.
Arguments Close {w} path.
Arguments Execute {w} c.

Inductive status : Type :=
| Quit                 (* [quit()] *)
| OpenFailed           (* the uncaught error of [open] *)
| Raised (e : exn).    (* any other uncaught exception *)

Inductive step (A : Type) : Type :=
| Next (a : A)
| Halt (s : status).
Arguments Next {A} a.
Arguments Halt {A} s.

Definition script (w : World) (A : Type) : Type := (list (event w) * step A)%type.

Definition ret {w : World} {A : Type} (a : A) : script w A := ([], Next a).

Definition emit {w : World} (e : event w) : script w unit := ([e], Next tt).

Definition halt {w : World} {A : Type} (s : status) : script w A := ([], Halt s).

Definition of_result {w : World} {A : Type} (r : result A) : script w A :=
  match r with
  | Ok a => ret a
  | Raise e => halt (Raised e)
  end.

Definition then_ {w : World} {A B : Type} (m : script w A) (k : A -> script w B)
  : script w B :=
  match snd m with
  | Next a => (app (fst m) (fst (k a)), snd (k a))
  | Halt s => (fst m, Halt s)
  end.

Declare Scope script_scope.
Delimit Scope script_scope with script.
Notation "x <- m ;; k" := (then_ m (fun x => k))
  (at level 61, m at next level, right associativity) : script_scope.

Definition print {w : World} (line : string) : script w unit := emit (Print line).

Definition quit {w : World} {A : Type} : script w A := halt Quit.

(** [xs[i]] on a list. *)
Definition list_item (xs : list string) (i : nat) : result string :=
  match nth_error xs i with
  | Some x => Ok x
  | None => Raise (IndexError "list index out of range")
  end.

(** *** [VersionedCityJSON] *)

(** The argument of the constructor, by the tests it makes on it. *)
Inductive file_argument : Type :=
| FileNone
| FilePath (path : string)
| FileDict (d : dict json)
| FileOther.

Module VersionedCityJSON.

(** [__init__]: the value is [self._citymodel]. *)
Definition init (w : World) (file : file_argument) : script w json :=
  (match file with
   | FileNone => ret (create_vcityjson w)
   | FilePath path =>
       match files w path with
       | NoFile => halt OpenFailed
       | NotJson => _ <- emit (Open path) ;; halt (Raised TypeError)
       | Json citymodel =>
           _ <- emit (Open path) ;;
           _ <- emit (Close path) ;;
           ret citymodel
       end
   | FileDict d => ret (JObj d)
   | FileOther => halt (Raised TypeError)
   end)%script.

(** [versioning]: the value is the [_json] of the [Versioning] object. *)
Definition versioning (citymodel : json) : result json :=
  json_subscript citymodel "versioning".

End VersionedCityJSON.

(** *** The script [cjv.py] *)

(** The body under [if __name__ == "__main__"], on [sys.argv]. *)
Definition main (w : World) (argv : list string) : script w unit :=
  (if Nat.ltb (length argv) 2 then
     _ <- print "Please provide a (versioned) CityJSON file" ;; quit
   else
     versioned_filename <- of_result (list_item argv 1) ;;
     if Nat.ltb (length argv) 3 then
       _ <- print "Please provide a command." ;; quit
     else
       command_name <- of_result (list_item argv 2) ;;
       _ <- print ("Opening " ++ versioned_filename ++ "...") ;;
       citymodel <-
         match files w versioned_filename with
         | NoFile => halt OpenFailed
         | NotJson =>
             _ <- emit (Open versioned_filename) ;;
             _ <- print "Oops! This is not a valid JSON file!" ;;
             quit
         | Json citymodel =>
             _ <- emit (Open versioned_filename) ;;
             _ <- emit (Close versioned_filename) ;;
             ret citymodel
         end ;;
       let args := Dict.setitem "citymodel" citymodel [] in
       versioned <- of_result (json_contains "versioning" citymodel) ;;
       if negb versioned then
         _ <- print (Fore_RED w ++ "The file provided is not a versioned CityJSON!") ;;
         quit
       else
         args <-
           (if String.eqb command_name "log" then
              if Nat.ltb 3 (length argv) then
                ref <- of_result (list_item argv 3) ;;
                ret (Dict.setitem "ref" (JStr ref) args)
              else ret args
            else if String.eqb command_name "checkout" then
              version_name <- of_result (list_item argv 3) ;;
              let args := Dict.setitem "version_name" (JStr version_name) args in
              output_file <- of_result (list_item argv 4) ;;
              ret (Dict.setitem "output_file" (JStr output_file) args)
            else ret args) ;;
         match get_command w command_name args with
         | None =>
             _ <- print "'None' is not a valid command. Please try one of: log." ;;
             quit
         | Some command => emit (Execute command)
         end)%script.

(** *** Descriptions of runs of [main] *)

(** The effects of the script up to the point where the file [f] has been
    loaded. *)
Definition opening (w : World) (f : string) : list (event w) :=
  [Print ("Opening " ++ f ++ "..."); Open f; Close f].

(** The end of a run once the arguments of the command are built: the
    command the factory gives is executed, or the script says that there is
    none and quits. *)
Definition dispatch (w : World) (command_name : string) (args : dict json)
  : script w unit :=
  match get_command w command_name args with
  | Some c => ([Execute c], Next tt)
  | None =>
      ([Print "'None' is not a valid command. Please try one of: log."],
       Halt Quit)
  end.

(** *** A sample world *)

Definition versioned_citymodel : json :=
  JObj [("type", JStr "CityJSON");
        ("versioning",
         JObj [("versions", JObj [("A", JObj version_A)]);
               ("branches", JObj [("main", JStr "A")]);
               ("tags", JObj [])])].

Definition plain_citymodel : json := JObj [("type", JStr "CityJSON")].

(** A factory that knows "log" and "checkout"; a command is shown by its
    name and its arguments. *)
Definition sample_world : World :=
  {| command := string * dict json;
     get_command := fun command_name args =>
       if String.eqb command_name "log" || String.eqb command_name "checkout"
       then Some (command_name, args) else None;
     Fore_RED := String (Ascii.ascii_of_nat 27) "[31m";
     files := fun path =>
       if String.eqb path "city.json" then Json versioned_citymodel
       else if String.eqb path "plain.json" then Json plain_citymodel
       else if String.eqb path "list.json" then Json (JArr [JStr "versioning"])
       else if String.eqb path "number.json" then Json (JNum "42")
       else if String.eqb path "broken.json" then NotJson
       else NoFile;
     create_vcityjson := versioned_citymodel;
     py_str := fun d => String.concat ", " (Dict.keys d) |}.

(** A version whose stored "parents" is null. *)
Definition version_N : dict json :=
  [("author", JStr "nil"); ("message", JStr "odd");
   ("date", JStr "2020-01-05"); ("parents", JNull);
   ("objects", JObj [])].

Definition null_parents : Versioning :=
  {| json_versions := [("A", version_A); ("N", version_N)];
     json_branches := [("main", "N")];
     json_tags := [] |}.

(** A version stored without "objects". *)
Definition bare_doc : Versioning :=
  {| json_versions := [("bare", [("author", JStr "ann")])];
     json_branches := [];
     json_tags := [] |}.

(** ** Facts about dicts *)

Section DictFacts.
Context {A : Type}.
Implicit Types (k : string) (d : dict A).

Lemma dict_get_none_iff k d : Dict.get k d = None <-> ~ is_key k d.
Proof.
  unfold is_key, Dict.keys.
  induction d as [| [k' a] rest IH]; simpl.
  - tauto.
  - destruct (String.eqb_spec k k') as [-> | Hne].
    + split; [discriminate | intros H; exfalso; apply H; now left].
    + rewrite IH. split.
      * intros H [Heq | Hin]; [congruence | auto].
      * intros H Hin. apply H. now right.
Qed.

Lemma dict_contains_iff k d : Dict.contains k d = true <-> is_key k d.
Proof.
  unfold Dict.contains.
  destruct (Dict.get k d) eqn:E.
  - split; [intros _ | reflexivity].
    destruct (dict_get_none_iff k d) as [_ H].
    destruct (in_dec string_dec k (Dict.keys d)) as [Hin | Hout]; [exact Hin |].
    rewrite (H Hout) in E. discriminate.
  - apply dict_get_none_iff in E. split; [discriminate | contradiction].
Qed.

Lemma dict_contains_false_iff k d : Dict.contains k d = false <-> ~ is_key k d.
Proof.
  rewrite <- dict_contains_iff. destruct (Dict.contains k d); split; congruence.
Qed.

Lemma dict_getitem_some k d a : Dict.get k d = Some a -> Dict.getitem d k = Ok a.
Proof. unfold Dict.getitem. now intros ->. Qed.

Lemma dict_getitem_none k d :
  ~ is_key k d -> Dict.getitem d k = Raise (KeyError (JStr k)).
Proof.
  intros H. apply dict_get_none_iff in H. unfold Dict.getitem. now rewrite H.
Qed.

Lemma dict_get_contains k d a : Dict.get k d = Some a -> Dict.contains k d = true.
Proof. unfold Dict.contains. now intros ->. Qed.

End DictFacts.

(** The keys of [versions] are the keys of the stored mapping, and the view
    stored under [k] is the one named [k] that refers to [versions[k]]. *)
Lemma versions_get (vg : Versioning) (k : string) :
  Dict.get k (Versioning.versions vg) =
  option_map (fun _ => {| _json := k; _version_name := k |})
             (Dict.get k (json_versions vg)).
Proof.
  unfold Versioning.versions.
  induction (json_versions vg) as [| [k' data] rest IH]; simpl.
  - reflexivity.
  - destruct (String.eqb_spec k k') as [-> | Hne]; [reflexivity | exact IH].
Qed.

Lemma versions_keys (vg : Versioning) :
  Dict.keys (Versioning.versions vg) = Dict.keys (json_versions vg).
Proof.
  unfold Versioning.versions, Dict.keys. rewrite map_map. reflexivity.
Qed.

Lemma versions_contains (vg : Versioning) (k : string) :
  Dict.contains k (Versioning.versions vg) = Dict.contains k (json_versions vg).
Proof.
  unfold Dict.contains. rewrite versions_get.
  now destruct (Dict.get k (json_versions vg)).
Qed.

Lemma versions_is_key (vg : Versioning) (k : string) :
  is_key k (Versioning.versions vg) <-> is_key k (json_versions vg).
Proof. unfold is_key. now rewrite versions_keys. Qed.

(** ** Reference resolution *)

Import Versioning.

Lemma resolve_ref_version (vg : Versioning) (ref : string) :
  is_key ref (json_versions vg) -> resolve_ref vg ref = Ok ref.
Proof.
  intros H. unfold resolve_ref.
  rewrite versions_contains.
  apply dict_contains_iff in H. now rewrite H.
Qed.

Lemma resolve_ref_branch (vg : Versioning) (ref n : string) :
  ~ is_key ref (json_versions vg) ->
  Dict.get ref (json_branches vg) = Some n ->
  resolve_ref vg ref = Ok n.
Proof.
  intros Hv Hb. unfold resolve_ref.
  rewrite versions_contains.
  apply dict_contains_false_iff in Hv. rewrite Hv.
  rewrite (dict_get_contains _ _ _ Hb).
  now apply dict_getitem_some.
Qed.

Lemma resolve_ref_tag (vg : Versioning) (ref n : string) :
  ~ is_key ref (json_versions vg) ->
  ~ is_key ref (json_branches vg) ->
  Dict.get ref (json_tags vg) = Some n ->
  resolve_ref vg ref = Ok n.
Proof.
  intros Hv Hb Ht. unfold resolve_ref.
  rewrite versions_contains.
  apply dict_contains_false_iff in Hv, Hb. rewrite Hv, Hb.
  rewrite (dict_get_contains _ _ _ Ht).
  now apply dict_getitem_some.
Qed.

Lemma resolve_ref_none (vg : Versioning) (ref : string) :
  ~ is_key ref (json_versions vg) ->
  ~ is_key ref (json_branches vg) ->
  ~ is_key ref (json_tags vg) ->
  resolve_ref vg ref = Raise (IndexError "Ref is not available in versioning.").
Proof.
  intros Hv Hb Ht. unfold resolve_ref.
  rewrite versions_contains.
  apply dict_contains_false_iff in Hv, Hb, Ht. now rewrite Hv, Hb, Ht.
Qed.

(** C1. Resolution is first match wins: a key of [versions] is returned
    unchanged; otherwise a key of [branches] gives the branch's target;
    otherwise a key of [tags] gives the tag's target.  In particular a
    string that is both a version name and a branch name resolves to
    itself, whatever the branch points at. *)
Theorem resolve_ref_first_match_wins (vg : Versioning) (ref : string) :
  (is_key ref (json_versions vg) -> resolve_ref vg ref = Ok ref) /\
  (forall n,
      ~ is_key ref (json_versions vg) ->
      Dict.get ref (json_branches vg) = Some n ->
      resolve_ref vg ref = Ok n) /\
  (forall n,
      ~ is_key ref (json_versions vg) ->
      ~ is_key ref (json_branches vg) ->
      Dict.get ref (json_tags vg) = Some n ->
      resolve_ref vg ref = Ok n) /\
  (forall n,
      is_key ref (json_versions vg) ->
      Dict.get ref (json_branches vg) = Some n ->
      resolve_ref vg ref = Ok ref).
Proof.
  split; [| split; [| split]].
  - apply resolve_ref_version.
  - intros n. apply resolve_ref_branch.
  - intros n. apply resolve_ref_tag.
  - intros n Hv _. now apply resolve_ref_version.
Qed.

Lemma not_key_of_get_none {A : Type} (k : string) (d : dict A) :
  Dict.get k d = None -> ~ is_key k d.
Proof. apply dict_get_none_iff. Qed.

Lemma is_key_of_get_some {A : Type} (k : string) (d : dict A) (a : A) :
  Dict.get k d = Some a -> is_key k d.
Proof.
  intros H. apply dict_contains_iff. exact (dict_get_contains _ _ _ H).
Qed.

Lemma resolve_ref_first_match_wins_witness :
  resolve_ref shadowed "B" = Ok "B" /\
  resolve_ref shadowed "main" = Ok "B" /\
  resolve_ref shadowed "v1" = Ok "A" /\
  resolve_ref shadowed "A" = Ok "A".
Proof.
  split; [| split; [| split]].
  - apply (proj1 (resolve_ref_first_match_wins shadowed "B")).
    apply (is_key_of_get_some "B" _ version_B). reflexivity.
  - apply (proj1 (proj2 (resolve_ref_first_match_wins shadowed "main")) "B").
    + apply not_key_of_get_none. reflexivity.
    + reflexivity.
  - apply (proj1 (proj2 (proj2 (resolve_ref_first_match_wins shadowed "v1"))) "A").
    + apply not_key_of_get_none. reflexivity.
    + apply not_key_of_get_none. reflexivity.
    + reflexivity.
  - apply (proj2 (proj2 (proj2 (resolve_ref_first_match_wins shadowed "A"))) "B").
    + apply (is_key_of_get_some "A" _ version_A). reflexivity.
    + reflexivity.
Defined.

(** C4. A reference that is a key of none of [versions], [branches] and
    [tags] is unresolved: [resolve_ref] raises its [IndexError] and returns
    no name at all. *)
Theorem resolve_ref_unresolved (vg : Versioning) (ref : string) :
  ~ is_key ref (json_versions vg) ->
  ~ is_key ref (json_branches vg) ->
  ~ is_key ref (json_tags vg) ->
  exists e,
    resolve_ref vg ref = Raise e /\
    is_unresolved_reference e = true /\
    forall n, resolve_ref vg ref <> Ok n.
Proof.
  intros Hv Hb Ht.
  exists (IndexError "Ref is not available in versioning.").
  rewrite (resolve_ref_none vg ref Hv Hb Ht).
  split; [reflexivity | split; [reflexivity | intros n; discriminate]].
Qed.

Lemma resolve_ref_unresolved_witness :
  exists e,
    resolve_ref scenario "nowhere" = Raise e /\
    is_unresolved_reference e = true /\
    forall n, resolve_ref scenario "nowhere" <> Ok n.
Proof.
  apply (resolve_ref_unresolved scenario "nowhere");
    apply not_key_of_get_none; reflexivity.
Defined.

(** C2, as the code has it.  [resolve_ref] never looks a branch target up:
    for a branch whose name is not itself a version name it returns the
    target, present or not.  The missing target is reported one step later,
    by the lookup in [get_version_from_ref], as the dangling-reference
    error and not as the unresolved one. *)
Theorem dangling_branch_reported_by_get_version (vg : Versioning) (b n : string) :
  Dict.get b (json_branches vg) = Some n ->
  ~ is_key n (json_versions vg) ->
  ~ is_key b (json_versions vg) ->
  resolve_ref vg b = Ok n /\
  exists e,
    get_version_from_ref vg b = Raise e /\
    is_dangling_reference e = true /\
    is_unresolved_reference e = false.
Proof.
  intros Hb Hn Hv.
  assert (Hres : resolve_ref vg b = Ok n) by now apply resolve_ref_branch.
  split; [exact Hres |].
  exists (KeyError (JStr n)).
  unfold get_version_from_ref. rewrite Hres. simpl.
  rewrite dict_getitem_none by now rewrite versions_is_key.
  split; [reflexivity | split; reflexivity].
Qed.

Lemma dangling_branch_reported_by_get_version_witness :
  resolve_ref ghost_doc "ghost" = Ok "Z" /\
  exists e,
    get_version_from_ref ghost_doc "ghost" = Raise e /\
    is_dangling_reference e = true /\
    is_unresolved_reference e = false.
Proof.
  apply (dangling_branch_reported_by_get_version ghost_doc "ghost" "Z").
  - reflexivity.
  - apply not_key_of_get_none. reflexivity.
  - apply not_key_of_get_none. reflexivity.
Defined.

(** C2 fails as stated: on the document with the branch ghost -> Z and no
    version Z, [resolve_ref] of "ghost" raises nothing; it returns "Z". *)
Lemma resolve_ref_dangling_branch_returns :
  Dict.get "ghost" (json_branches ghost_doc) = Some "Z" /\
  ~ is_key "Z" (json_versions ghost_doc) /\
  resolve_ref ghost_doc "ghost" = Ok "Z" /\
  ~ (exists e, resolve_ref ghost_doc "ghost" = Raise e /\
               is_dangling_reference e = true).
Proof.
  split; [reflexivity |].
  split; [apply not_key_of_get_none; reflexivity |].
  split; [reflexivity |].
  intros [e [H _]]. discriminate H.
Qed.

(** C3. [get_version_from_ref] is [versions[resolve_ref(ref)]]: it returns
    the view named [resolve_ref(ref)] when that name is stored, passes on
    the exception of a failed resolution, and raises the dangling-reference
    error, which is not the unresolved one, when the resolved name is not
    stored. *)
Theorem get_version_from_ref_composition (vg : Versioning) (ref : string) :
  get_version_from_ref vg ref =
    bind (resolve_ref vg ref) (Dict.getitem (versions vg)) /\
  (forall n,
      resolve_ref vg ref = Ok n ->
      is_key n (json_versions vg) ->
      exists v,
        get_version_from_ref vg ref = Ok v /\
        Dict.get n (versions vg) = Some v /\
        Version.name v = n) /\
  (forall e,
      resolve_ref vg ref = Raise e ->
      get_version_from_ref vg ref = Raise e) /\
  (forall n,
      resolve_ref vg ref = Ok n ->
      ~ is_key n (json_versions vg) ->
      exists e,
        get_version_from_ref vg ref = Raise e /\
        is_dangling_reference e = true /\
        is_unresolved_reference e = false).
Proof.
  split; [reflexivity |].
  unfold get_version_from_ref.
  split; [| split].
  - intros n Hres Hkey. rewrite Hres. simpl.
    exists {| _json := n; _version_name := n |}.
    assert (Hget : Dict.get n (versions vg)
                   = Some {| _json := n; _version_name := n |}).
    { rewrite versions_get.
      destruct (Dict.get n (json_versions vg)) eqn:E; [reflexivity |].
      apply dict_get_none_iff in E. contradiction. }
    split; [now apply dict_getitem_some | split; [exact Hget | reflexivity]].
  - intros e Hres. now rewrite Hres.
  - intros n Hres Hkey. rewrite Hres. simpl.
    exists (KeyError (JStr n)).
    rewrite dict_getitem_none by now rewrite versions_is_key.
    split; [reflexivity | split; reflexivity].
Qed.

Lemma get_version_from_ref_composition_witness :
  (exists v,
      get_version_from_ref ghost_doc "main" = Ok v /\
      Dict.get "B" (versions ghost_doc) = Some v /\
      Version.name v = "B") /\
  get_version_from_ref ghost_doc "nowhere"
    = Raise (IndexError "Ref is not available in versioning.") /\
  (exists e,
      get_version_from_ref ghost_doc "ghost" = Raise e /\
      is_dangling_reference e = true /\
      is_unresolved_reference e = false).
Proof.
  split; [| split].
  - apply (proj1 (proj2 (get_version_from_ref_composition ghost_doc "main")) "B").
    + reflexivity.
    + apply (is_key_of_get_some "B" _ version_B). reflexivity.
  - apply (proj1 (proj2 (proj2 (get_version_from_ref_composition ghost_doc "nowhere")))).
    reflexivity.
  - apply (proj2 (proj2 (proj2 (get_version_from_ref_composition ghost_doc "ghost"))) "Z").
    + reflexivity.
    + apply not_key_of_get_none. reflexivity.
Defined.

(** C5, as the code has it.  On every document, well formed or not, a
    branch [b -> n] resolves to [n] when [b] is not a version name, and a
    tag [t -> n] resolves to [n] when [t] is neither a version name nor a
    branch name. *)
Theorem resolve_ref_unshadowed_label (vg : Versioning) :
  (forall b n,
      Dict.get b (json_branches vg) = Some n ->
      ~ is_key b (json_versions vg) ->
      resolve_ref vg b = Ok n) /\
  (forall t n,
      Dict.get t (json_tags vg) = Some n ->
      ~ is_key t (json_versions vg) ->
      ~ is_key t (json_branches vg) ->
      resolve_ref vg t = Ok n).
Proof.
  split.
  - intros b n Hb Hv. now apply resolve_ref_branch.
  - intros t n Ht Hv Hb. now apply resolve_ref_tag.
Qed.

Lemma resolve_ref_unshadowed_label_witness :
  resolve_ref shadowed "main" = Ok "B" /\
  resolve_ref shadowed "v1" = Ok "A".
Proof.
  split.
  - apply (proj1 (resolve_ref_unshadowed_label shadowed) "main" "B").
    + reflexivity.
    + apply not_key_of_get_none. reflexivity.
  - apply (proj2 (resolve_ref_unshadowed_label shadowed) "v1" "A").
    + reflexivity.
    + apply not_key_of_get_none. reflexivity.
    + apply not_key_of_get_none. reflexivity.
Defined.

Lemma shadowed_well_formed : well_formed shadowed.
Proof.
  constructor.
  - repeat constructor; simpl; intuition discriminate.
  - repeat constructor; simpl; intuition discriminate.
  - repeat constructor; simpl; intuition discriminate.
  - intros k n. simpl.
    destruct (String.eqb k "main"); [| destruct (String.eqb k "A")];
      intros H; inversion H; subst; unfold is_key; simpl; auto.
  - intros k n. simpl.
    destruct (String.eqb k "v1"); [| destruct (String.eqb k "main")];
      intros H; inversion H; subst; unfold is_key; simpl; auto.
  - intros k data p. simpl.
    destruct (String.eqb k "A"); [| destruct (String.eqb k "B")];
      intros H; inversion H; subst; simpl.
    + contradiction.
    + intros [<- | []]. exists "A". split; [reflexivity |].
      unfold is_key. simpl. auto.
  - exists (fun s => if String.eqb s "B" then 1 else 0).
    intros k data n. simpl.
    destruct (String.eqb_spec k "A") as [-> | _];
      [| destruct (String.eqb_spec k "B") as [-> | _]];
      intros H; inversion H; subst; simpl.
    + contradiction.
    + intros [Heq | []]. inversion Heq; subst. simpl. lia.
Qed.

(** C5 fails as stated: [shadowed] is well formed, has the branch A -> B
    and the tag main -> A, yet "A" resolves to the version A and "main"
    to the target of the branch main. *)
Lemma resolve_ref_shadowed_label :
  well_formed shadowed /\
  Dict.get "A" (json_branches shadowed) = Some "B" /\
  resolve_ref shadowed "A" <> Ok "B" /\
  Dict.get "main" (json_tags shadowed) = Some "A" /\
  resolve_ref shadowed "main" <> Ok "A".
Proof.
  split; [exact shadowed_well_formed |].
  split; [reflexivity |].
  split; [discriminate |].
  split; [reflexivity | discriminate].
Qed.

(** ** Dict writes *)

Section DictWrites.
Context {A : Type}.
Implicit Types (k : string) (d : dict A).

Lemma dict_get_setitem_same k a d : Dict.get k (Dict.setitem k a d) = Some a.
Proof.
  induction d as [| [k' a'] rest IH]; simpl.
  - now rewrite String.eqb_refl.
  - destruct (String.eqb k k') eqn:E; simpl; rewrite E; [reflexivity | exact IH].
Qed.

Lemma dict_get_setitem_other k k' a d :
  k' <> k -> Dict.get k' (Dict.setitem k a d) = Dict.get k' d.
Proof.
  intros Hne.
  induction d as [| [k0 a0] rest IH]; simpl.
  - apply String.eqb_neq in Hne. now rewrite Hne.
  - destruct (String.eqb_spec k k0) as [-> | Hk]; simpl.
    + apply String.eqb_neq in Hne. now rewrite Hne.
    + now rewrite IH.
Qed.

Lemma dict_get_update_same k f d a :
  Dict.get k d = Some a -> Dict.get k (Dict.update k f d) = Some (f a).
Proof.
  induction d as [| [k' a'] rest IH]; simpl.
  - discriminate.
  - destruct (String.eqb k k') eqn:E; simpl; rewrite E.
    + now intros [= ->].
    + exact IH.
Qed.

Lemma dict_get_update_other k k' f d :
  k' <> k -> Dict.get k' (Dict.update k f d) = Dict.get k' d.
Proof.
  intros Hne.
  induction d as [| [k0 a0] rest IH]; simpl.
  - reflexivity.
  - destruct (String.eqb_spec k k0) as [-> | Hk]; simpl.
    + apply String.eqb_neq in Hne. now rewrite Hne.
    + now rewrite IH.
Qed.

Lemma dict_keys_update k f d : Dict.keys (Dict.update k f d) = Dict.keys d.
Proof.
  unfold Dict.keys.
  induction d as [| [k' a'] rest IH]; simpl.
  - reflexivity.
  - destruct (String.eqb k k'); simpl; [reflexivity | now rewrite IH].
Qed.

End DictWrites.

(** ** Comprehensions *)

Section Comprehension.
Context {A B : Type} (f : A -> result B).

Lemma comprehension_ok (g : A -> B) (xs : list A) :
  (forall x, In x xs -> f x = Ok (g x)) ->
  comprehension f xs = Ok (map g xs).
Proof.
  induction xs as [| x rest IH]; intros H; simpl.
  - reflexivity.
  - rewrite (H x) by now left. simpl.
    rewrite IH by (intros y Hy; apply H; now right).
    reflexivity.
Qed.

Lemma comprehension_ok_inv (xs : list A) (ys : list B) :
  comprehension f xs = Ok ys -> Forall2 (fun x y => f x = Ok y) xs ys.
Proof.
  revert ys. induction xs as [| x rest IH]; intros ys; simpl.
  - intros [= <-]. constructor.
  - destruct (f x) as [y | e] eqn:Ex; simpl; [| discriminate].
    destruct (comprehension f rest) as [ys' | e]; simpl; [| discriminate].
    intros [= <-]. constructor; [exact Ex | now apply IH].
Qed.

Lemma comprehension_raise_inv (xs : list A) (e : exn) :
  comprehension f xs = Raise e -> exists x, In x xs /\ f x = Raise e.
Proof.
  induction xs as [| x rest IH]; simpl.
  - discriminate.
  - destruct (f x) as [y | e'] eqn:Ex; simpl.
    + destruct (comprehension f rest) as [ys' | e'']; simpl; [discriminate |].
      intros [= ->]. destruct (IH eq_refl) as [x' [Hin Hx']].
      exists x'. split; [now right | exact Hx'].
    + intros [= ->]. exists x. split; [now left | exact Ex].
Qed.

Lemma comprehension_fails (xs : list A) :
  Exists (fun x => exists e, f x = Raise e) xs ->
  exists e, comprehension f xs = Raise e.
Proof.
  intros Hex.
  destruct (comprehension f xs) as [ys | e] eqn:E; [| now exists e].
  apply comprehension_ok_inv in E. exfalso.
  revert ys E. induction Hex as [x rest [e He] | x rest _ IH]; intros ys E;
    inversion E; subst.
  - congruence.
  - eapply IH; eassumption.
Qed.

End Comprehension.

(** ** Version accessors *)

Lemma versions_getitem_present (vg : Versioning) (n : string) :
  is_key n (json_versions vg) ->
  Dict.getitem (versions vg) n = Ok (stored_view n).
Proof.
  intros H. apply dict_getitem_some. rewrite versions_get.
  destruct (Dict.get n (json_versions vg)) eqn:E; [reflexivity |].
  apply dict_get_none_iff in E. contradiction.
Qed.

Lemma versions_getitem_absent (vg : Versioning) (n : string) :
  ~ is_key n (json_versions vg) ->
  Dict.getitem (versions vg) n = Raise (KeyError (JStr n)).
Proof.
  intros H. apply dict_getitem_none. now rewrite versions_is_key.
Qed.

Lemma is_key_dec {A : Type} (k : string) (d : dict A) :
  {is_key k d} + {~ is_key k d}.
Proof. apply (in_dec string_dec). Qed.

Lemma has_parents_spec (vg : Versioning) (self : Version) (data : dict json) :
  Version.deref vg self = Some data ->
  Version.has_parents vg self = Some (Dict.contains "parents" data).
Proof. unfold Version.has_parents. now intros ->. Qed.

(** With a stored list of names, [parents] is the comprehension of the
    literal lookups. *)
Lemma parents_stored_names
  (vg : Versioning) (self : Version) (data : dict json) (names : list string) :
  Version.deref vg self = Some data ->
  Dict.get "parents" data = Some (JArr (map JStr names)) ->
  Version.parents vg self =
    Some (comprehension (Dict.getitem (versions vg)) names).
Proof.
  intros Hd Hp. unfold Version.parents.
  rewrite (has_parents_spec vg self data Hd).
  rewrite (dict_get_contains _ _ _ Hp).
  rewrite Hd. simpl. f_equal.
  rewrite (dict_getitem_some _ _ _ Hp). simpl.
  clear Hp Hd. induction names as [| n rest IH]; simpl.
  - reflexivity.
  - now rewrite IH.
Qed.

(** C6, evaluated.  Version A of [scenario] stores "parents": [] and so has
    no parent, yet [has_parents] answers true: the method tests that the
    "parents" key is there, not that the list under it is non-empty. *)
Theorem has_parents_true_on_empty_list :
  Dict.get "A" (versions scenario) = Some (stored_view "A") /\
  Version.deref scenario (stored_view "A") = Some version_A /\
  Dict.get "parents" version_A = Some (JArr []) /\
  Version.has_parents scenario (stored_view "A") = Some true /\
  Version.parents scenario (stored_view "A") = Some (Ok []).
Proof. repeat split. Qed.

(** C7. For a version that stores a list of parent names, [parents] looks
    every name up in [versions] itself: when all names are stored it returns
    their views in the stored order; it raises exactly when some name is not
    stored, and then with the dangling-reference error for such a name; and
    the branches and tags of the document play no part in the result. *)
Theorem parents_literal_lookup
  (vg : Versioning) (self : Version) (data : dict json) (names : list string) :
  Version.deref vg self = Some data ->
  Dict.get "parents" data = Some (JArr (map JStr names)) ->
  (Forall (fun n => is_key n (json_versions vg)) names ->
   Version.parents vg self = Some (Ok (map stored_view names))) /\
  ((exists e, Version.parents vg self = Some (Raise e)) <->
   Exists (fun n => ~ is_key n (json_versions vg)) names) /\
  (forall e,
      Version.parents vg self = Some (Raise e) ->
      is_dangling_reference e = true /\
      exists n,
        In n names /\ ~ is_key n (json_versions vg) /\ e = KeyError (JStr n)) /\
  (forall bs ts,
      Version.parents
        {| json_versions := json_versions vg;
           json_branches := bs; json_tags := ts |} self
      = Version.parents vg self).
Proof.
  intros Hd Hp.
  pose proof (parents_stored_names vg self data names Hd Hp) as Hpar.
  assert (Hraise : forall e,
             Version.parents vg self = Some (Raise e) ->
             exists n, In n names /\ ~ is_key n (json_versions vg)
                       /\ e = KeyError (JStr n)).
  { intros e He. rewrite Hpar in He. injection He as He.
    apply comprehension_raise_inv in He. destruct He as [n [Hin Hn]].
    exists n. split; [exact Hin |].
    destruct (is_key_dec n (json_versions vg)) as [Hk | Hk].
    - rewrite (versions_getitem_present vg n Hk) in Hn. discriminate.
    - rewrite (versions_getitem_absent vg n Hk) in Hn.
      split; [exact Hk | congruence]. }
  split; [| split; [| split]].
  - intros Hall. rewrite Hpar. f_equal.
    apply comprehension_ok. intros n Hin.
    apply versions_getitem_present.
    rewrite Forall_forall in Hall. now apply Hall.
  - split.
    + intros [e He]. destruct (Hraise e He) as [n [Hin [Hk _]]].
      apply Exists_exists. now exists n.
    + intros Hex. rewrite Hpar.
      destruct (comprehension_fails (Dict.getitem (versions vg)) names) as [e He].
      * apply Exists_exists in Hex. destruct Hex as [n [Hin Hk]].
        apply Exists_exists. exists n. split; [exact Hin |].
        exists (KeyError (JStr n)). now apply versions_getitem_absent.
      * exists e. now rewrite He.
  - intros e He. destruct (Hraise e He) as [n [Hin [Hk ->]]].
    split; [reflexivity |]. now exists n.
  - intros bs ts. reflexivity.
Qed.

Lemma parents_literal_lookup_witness :
  Version.parents scenario (stored_view "B") = Some (Ok [stored_view "A"]) /\
  (exists e, Version.parents aliased_parent (stored_view "M") = Some (Raise e)).
Proof.
  split.
  - apply (proj1 (parents_literal_lookup scenario (stored_view "B")
                    version_B ["A"] eq_refl eq_refl)).
    constructor; [| constructor].
    apply (is_key_of_get_some "A" _ version_A). reflexivity.
  - apply (proj1 (proj2 (parents_literal_lookup aliased_parent (stored_view "M")
                           version_M ["A"; "main"] eq_refl eq_refl))).
    apply Exists_cons_tl. apply Exists_cons_hd.
    apply not_key_of_get_none. reflexivity.
Defined.

(** C10. A version whose stored data has no "parents" entry answers
    [has_parents] with false and [parents] with the empty list, without an
    exception; and whenever [has_parents] is false, [parents] is the empty
    list. *)
Theorem parents_of_root_version (vg : Versioning) (self : Version) :
  (forall data,
      Version.deref vg self = Some data ->
      ~ is_key "parents" data ->
      Version.has_parents vg self = Some false /\
      Version.parents vg self = Some (Ok [])) /\
  (Version.has_parents vg self = Some false ->
   Version.parents vg self = Some (Ok [])).
Proof.
  assert (H : Version.has_parents vg self = Some false ->
              Version.parents vg self = Some (Ok [])).
  { intros Hh. unfold Version.parents. now rewrite Hh. }
  split; [| exact H].
  intros data Hd Hp.
  assert (Hh : Version.has_parents vg self = Some false).
  { rewrite (has_parents_spec vg self data Hd).
    apply dict_contains_false_iff in Hp. now rewrite Hp. }
  split; [exact Hh | now apply H].
Qed.

Lemma parents_of_root_version_witness :
  (Version.has_parents rooted (stored_view "R") = Some false /\
   Version.parents rooted (stored_view "R") = Some (Ok [])) /\
  Version.parents rooted (stored_view "R") = Some (Ok []).
Proof.
  split.
  - apply (proj1 (parents_of_root_version rooted (stored_view "R")) version_R).
    + reflexivity.
    + apply not_key_of_get_none. reflexivity.
  - apply (proj2 (parents_of_root_version rooted (stored_view "R"))).
    reflexivity.
Defined.

(** ** The message setter *)

Lemma set_message_versions (vg : Versioning) (self : Version) (value : json) :
  versions (Version.set_message vg self value) = versions vg.
Proof.
  unfold versions, Version.set_message. simpl.
  induction (json_versions vg) as [| [k data] rest IH]; simpl.
  - reflexivity.
  - destruct (String.eqb (_json self) k); simpl; [reflexivity | now rewrite IH].
Qed.

Lemma set_message_deref
  (vg : Versioning) (self : Version) (data : dict json) (value : json) :
  Version.deref vg self = Some data ->
  Version.deref (Version.set_message vg self value) self
  = Some (Dict.setitem "message" value data).
Proof.
  unfold Version.deref, Version.set_message. simpl.
  apply dict_get_update_same.
Qed.

(** C8. Assigning [message] on a version writes the new value under
    "message" in the stored data of that version and nowhere else.  The
    setter leaves the view, and so its name, as it is, and [versions] builds
    the same views under the same names; the author, date, [has_parents] and
    parents of the version read the same before and after; so do the other
    fields of its stored data, the other versions, the branches and the
    tags. *)
Theorem set_message_in_place
  (vg : Versioning) (self : Version) (data : dict json) (value : json) :
  Version.deref vg self = Some data ->
  Version.deref (Version.set_message vg self value) self
    = Some (Dict.setitem "message" value data) /\
  Version.message (Version.set_message vg self value) self = Some (Ok value) /\
  versions (Version.set_message vg self value) = versions vg /\
  Version.author (Version.set_message vg self value) self
    = Version.author vg self /\
  Version.date (Version.set_message vg self value) self
    = Version.date vg self /\
  Version.has_parents (Version.set_message vg self value) self
    = Version.has_parents vg self /\
  Version.parents (Version.set_message vg self value) self
    = Version.parents vg self /\
  (forall field,
      field <> "message" ->
      Dict.get field (Dict.setitem "message" value data) = Dict.get field data) /\
  (forall k,
      k <> _json self ->
      Dict.get k (json_versions (Version.set_message vg self value))
      = Dict.get k (json_versions vg)) /\
  json_branches (Version.set_message vg self value) = json_branches vg /\
  json_tags (Version.set_message vg self value) = json_tags vg.
Proof.
  intros Hd.
  pose proof (set_message_deref vg self data value Hd) as Hd'.
  assert (Hfield : forall field,
             field <> "message" ->
             Dict.get field (Dict.setitem "message" value data)
             = Dict.get field data).
  { intros field Hne. now apply dict_get_setitem_other. }
  assert (Hhas : Version.has_parents (Version.set_message vg self value) self
                 = Version.has_parents vg self).
  { unfold Version.has_parents, Dict.contains. rewrite Hd', Hd. simpl.
    now rewrite Hfield by discriminate. }
  split; [exact Hd' |].
  split.
  { unfold Version.message. rewrite Hd'. simpl. unfold Dict.getitem.
    now rewrite dict_get_setitem_same. }
  split; [apply set_message_versions |].
  split.
  { unfold Version.author, Dict.getitem. rewrite Hd', Hd. simpl.
    now rewrite Hfield by discriminate. }
  split.
  { unfold Version.date, Dict.getitem. rewrite Hd', Hd. simpl.
    now rewrite Hfield by discriminate. }
  split; [exact Hhas |].
  split.
  { unfold Version.parents. rewrite Hhas, Hd', Hd. simpl.
    unfold Dict.getitem. rewrite Hfield by discriminate.
    now rewrite set_message_versions. }
  split; [exact Hfield |].
  split; [| split; reflexivity].
  intros k Hne. unfold Version.set_message. simpl.
  now apply dict_get_update_other.
Qed.

Lemma set_message_in_place_witness :
  Version.message (Version.set_message scenario (stored_view "B") (JStr "amended"))
                  (stored_view "B")
  = Some (Ok (JStr "amended")) /\
  Version.parents (Version.set_message scenario (stored_view "B") (JStr "amended"))
                  (stored_view "B")
  = Version.parents scenario (stored_view "B").
Proof.
  pose proof (set_message_in_place scenario (stored_view "B") version_B
                (JStr "amended") eq_refl) as H.
  split.
  - exact (proj1 (proj2 H)).
  - exact (proj1 (proj2 (proj2 (proj2 (proj2 (proj2 (proj2 H))))))).
Defined.

(** ** The reverse indices *)

Section ReverseIndex.
Variable vg : Versioning.

Lemma entry_present (kj : string * string) :
  is_key (snd kj) (json_versions vg) ->
  index_entry vg kj = Ok (fst kj, stored_view (snd kj)).
Proof.
  intros H. unfold index_entry. now rewrite versions_getitem_present.
Qed.

Lemma entry_absent (kj : string * string) :
  ~ is_key (snd kj) (json_versions vg) ->
  index_entry vg kj = Raise (KeyError (JStr (snd kj))).
Proof.
  intros H. unfold index_entry. now rewrite versions_getitem_absent.
Qed.

Lemma index_dangling (refs : dict string) (k n : string) :
  In (k, n) refs ->
  ~ is_key n (json_versions vg) ->
  exists e, comprehension (index_entry vg) refs = Raise e /\ is_dangling_reference e = true.
Proof.
  intros Hin Hn.
  destruct (comprehension_fails (index_entry vg) refs) as [e He].
  { apply Exists_exists. exists (k, n). split; [exact Hin |].
    exists (KeyError (JStr n)). now apply entry_absent. }
  exists e. split; [exact He |].
  apply comprehension_raise_inv in He. destruct He as [kj [_ Hkj]].
  destruct (is_key_dec (snd kj) (json_versions vg)) as [Hk | Hk].
  - rewrite (entry_present kj Hk) in Hkj. discriminate.
  - rewrite (entry_absent kj Hk) in Hkj. injection Hkj as <-. reflexivity.
Qed.

Lemma index_defined_iff (refs : dict string) :
  (exists ix, comprehension (index_entry vg) refs = Ok ix) <->
  (forall k n, In (k, n) refs -> is_key n (json_versions vg)).
Proof.
  split.
  - intros [ix Hix] k n Hin.
    destruct (is_key_dec n (json_versions vg)) as [Hk | Hk]; [exact Hk |].
    destruct (index_dangling refs k n Hin Hk) as [e [He _]]. congruence.
  - intros Hall.
    exists (map (fun kj => (fst kj, stored_view (snd kj))) refs).
    apply comprehension_ok. intros [k n] Hin.
    apply entry_present. simpl. now apply (Hall k n).
Qed.

End ReverseIndex.

(** C9. If some branch points at a name that is not stored, the
    [branches] mapping of the document raises the [KeyError] of that
    lookup, and so does the [branches] list of every version, related to
    that branch or not; the mapping and the lists are defined exactly on
    the documents whose branch targets are all stored.  The same holds of
    tags. *)
Theorem reverse_index_needs_stored_targets (vg : Versioning) :
  (forall b n,
      In (b, n) (json_branches vg) ->
      ~ is_key n (json_versions vg) ->
      exists e,
        Versioning.branches vg = Raise e /\
        is_dangling_reference e = true /\
        forall self, Version.branches vg self = Raise e) /\
  (forall t n,
      In (t, n) (json_tags vg) ->
      ~ is_key n (json_versions vg) ->
      exists e,
        Versioning.tags vg = Raise e /\
        is_dangling_reference e = true /\
        forall self, Version.tags vg self = Raise e) /\
  (forall self,
      (exists names, Version.branches vg self = Ok names) <->
      (forall b n, In (b, n) (json_branches vg) -> is_key n (json_versions vg))) /\
  (forall self,
      (exists names, Version.tags vg self = Ok names) <->
      (forall t n, In (t, n) (json_tags vg) -> is_key n (json_versions vg))).
Proof.
  split; [| split; [| split]].
  - intros b n Hin Hn.
    destruct (index_dangling vg (json_branches vg) b n Hin Hn) as [e [He Hd]].
    exists e. split; [exact He | split; [exact Hd |]].
    intros self. unfold Version.branches.
    unfold Versioning.branches in He |- *. now rewrite He.
  - intros t n Hin Hn.
    destruct (index_dangling vg (json_tags vg) t n Hin Hn) as [e [He Hd]].
    exists e. split; [exact He | split; [exact Hd |]].
    intros self. unfold Version.tags.
    unfold Versioning.tags in He |- *. now rewrite He.
  - intros self. rewrite <- index_defined_iff.
    unfold Version.branches, Versioning.branches.
    split.
    + intros [names H].
      destruct (comprehension _ (json_branches vg)) as [ix | e];
        [now exists ix | discriminate].
    + intros [ix H]. rewrite H. simpl. eexists. reflexivity.
  - intros self. rewrite <- index_defined_iff.
    unfold Version.tags, Versioning.tags.
    split.
    + intros [names H].
      destruct (comprehension _ (json_tags vg)) as [ix | e];
        [now exists ix | discriminate].
    + intros [ix H]. rewrite H. simpl. eexists. reflexivity.
Qed.

Lemma reverse_index_needs_stored_targets_witness :
  (exists e,
      Versioning.branches ghost_doc = Raise e /\
      is_dangling_reference e = true /\
      forall self, Version.branches ghost_doc self = Raise e) /\
  (exists e,
      Versioning.tags ghost_tag_doc = Raise e /\
      is_dangling_reference e = true /\
      forall self, Version.tags ghost_tag_doc self = Raise e) /\
  (forall b n, In (b, n) (json_branches scenario) ->
               is_key n (json_versions scenario)) /\
  (forall t n, In (t, n) (json_tags scenario) ->
               is_key n (json_versions scenario)).
Proof.
  split; [| split; [| split]].
  - apply (proj1 (reverse_index_needs_stored_targets ghost_doc) "ghost" "Z").
    + simpl. auto.
    + apply not_key_of_get_none. reflexivity.
  - apply (proj1 (proj2 (reverse_index_needs_stored_targets ghost_tag_doc))
             "lost" "Y").
    + simpl. auto.
    + apply not_key_of_get_none. reflexivity.
  - apply (proj1 (proj2 (proj2 (reverse_index_needs_stored_targets scenario)))
             (stored_view "B")).
    exists ["main"]. reflexivity.
  - apply (proj2 (proj2 (proj2 (reverse_index_needs_stored_targets scenario)))
             (stored_view "A")).
    exists ["v1"]. reflexivity.
Defined.

(** ** More on reference resolution *)

Lemma resolve_ref_inversion (vg : Versioning) (ref : string) :
  (forall n,
      resolve_ref vg ref = Ok n ->
      (n = ref /\ is_key ref (json_versions vg)) \/
      (~ is_key ref (json_versions vg) /\
       Dict.get ref (json_branches vg) = Some n) \/
      (~ is_key ref (json_versions vg) /\
       ~ is_key ref (json_branches vg) /\
       Dict.get ref (json_tags vg) = Some n)) /\
  (forall e,
      resolve_ref vg ref = Raise e ->
      e = IndexError "Ref is not available in versioning." /\
      ~ is_key ref (json_versions vg) /\
      ~ is_key ref (json_branches vg) /\
      ~ is_key ref (json_tags vg)).
Proof.
  destruct (is_key_dec ref (json_versions vg)) as [Hv | Hv].
  { rewrite (resolve_ref_version vg ref Hv). split.
    - intros n [= <-]. left. now split.
    - intros e H. discriminate. }
  destruct (Dict.get ref (json_branches vg)) as [b |] eqn:Hb.
  { rewrite (resolve_ref_branch vg ref b Hv Hb). split.
    - intros n [= <-]. right. left. now split.
    - intros e H. discriminate. }
  apply dict_get_none_iff in Hb.
  destruct (Dict.get ref (json_tags vg)) as [t |] eqn:Ht.
  { rewrite (resolve_ref_tag vg ref t Hv Hb Ht). split.
    - intros n [= <-]. right. right. now repeat split.
    - intros e H. discriminate. }
  apply dict_get_none_iff in Ht.
  rewrite (resolve_ref_none vg ref Hv Hb Ht). split.
  - intros n H. discriminate.
  - intros e [= <-]. now repeat split.
Qed.

(** X1. Whatever [resolve_ref] returns is the reference itself, being a
    version name, or the stored target of the branch of that name, or the
    stored target of the tag of that name, in this order of preference; and
    the only exception it raises is its own [IndexError], for a reference
    found in none of the three mappings. *)
Theorem resolve_ref_origin (vg : Versioning) (ref : string) :
  (forall n,
      resolve_ref vg ref = Ok n ->
      (n = ref /\ is_key ref (json_versions vg)) \/
      (~ is_key ref (json_versions vg) /\
       Dict.get ref (json_branches vg) = Some n) \/
      (~ is_key ref (json_versions vg) /\
       ~ is_key ref (json_branches vg) /\
       Dict.get ref (json_tags vg) = Some n)) /\
  (forall e,
      resolve_ref vg ref = Raise e ->
      e = IndexError "Ref is not available in versioning." /\
      ~ is_key ref (json_versions vg) /\
      ~ is_key ref (json_branches vg) /\
      ~ is_key ref (json_tags vg)).
Proof. exact (resolve_ref_inversion vg ref). Qed.

Lemma resolve_ref_origin_witness :
  ("B" = "main" /\ is_key "main" (json_versions scenario)) \/
  (~ is_key "main" (json_versions scenario) /\
   Dict.get "main" (json_branches scenario) = Some "B") \/
  (~ is_key "main" (json_versions scenario) /\
   ~ is_key "main" (json_branches scenario) /\
   Dict.get "main" (json_tags scenario) = Some "B").
Proof.
  apply (proj1 (resolve_ref_origin scenario "main") "B"). reflexivity.
Defined.

Lemma resolve_ref_is_stored (vg : Versioning) (ref n : string) :
  targets_present vg (json_branches vg) ->
  targets_present vg (json_tags vg) ->
  resolve_ref vg ref = Ok n ->
  is_key n (json_versions vg).
Proof.
  intros Hb Ht Hres.
  destruct (proj1 (resolve_ref_inversion vg ref) n Hres)
    as [[-> Hk] | [[_ Hget] | [_ [_ Hget]]]].
  - exact Hk.
  - exact (Hb ref n Hget).
  - exact (Ht ref n Hget).
Qed.

(** X2. On a document whose branch and tag targets are all stored,
    whatever [resolve_ref] returns is a stored version name, so
    [get_version_from_ref] returns the view of that name whenever
    [resolve_ref] succeeds, and its only failure is the unresolved
    reference. *)
Theorem get_version_from_ref_without_dangling (vg : Versioning) (ref : string) :
  targets_present vg (json_branches vg) ->
  targets_present vg (json_tags vg) ->
  (forall n,
      resolve_ref vg ref = Ok n ->
      is_key n (json_versions vg) /\
      get_version_from_ref vg ref = Ok (stored_view n)) /\
  (forall e,
      get_version_from_ref vg ref = Raise e ->
      resolve_ref vg ref = Raise e /\ is_unresolved_reference e = true).
Proof.
  intros Hb Ht.
  assert (Hok : forall n,
             resolve_ref vg ref = Ok n ->
             is_key n (json_versions vg) /\
             get_version_from_ref vg ref = Ok (stored_view n)).
  { intros n Hres.
    pose proof (resolve_ref_is_stored vg ref n Hb Ht Hres) as Hk.
    split; [exact Hk |].
    unfold get_version_from_ref. rewrite Hres. simpl.
    now apply versions_getitem_present. }
  split; [exact Hok |].
  intros e He.
  destruct (resolve_ref vg ref) as [n |e'] eqn:Hres.
  - destruct (Hok n eq_refl) as [_ H]. congruence.
  - unfold get_version_from_ref in He. rewrite Hres in He. simpl in He.
    injection He as <-. split; [reflexivity |].
    destruct (proj2 (resolve_ref_inversion vg ref) e' Hres) as [-> _]. reflexivity.
Qed.

Lemma scenario_targets :
  targets_present scenario (json_branches scenario) /\
  targets_present scenario (json_tags scenario).
Proof.
  split; intros k n; simpl.
  - destruct (String.eqb k "main"); intros H; inversion H; subst.
    unfold is_key. simpl. auto.
  - destruct (String.eqb k "v1"); intros H; inversion H; subst.
    unfold is_key. simpl. auto.
Qed.

Lemma get_version_from_ref_without_dangling_witness :
  (is_key "A" (json_versions scenario) /\
   get_version_from_ref scenario "v1" = Ok (stored_view "A")) /\
  (resolve_ref scenario "nowhere"
   = Raise (IndexError "Ref is not available in versioning.") /\
   is_unresolved_reference (IndexError "Ref is not available in versioning.")
   = true).
Proof.
  split.
  - apply (proj1 (get_version_from_ref_without_dangling scenario "v1"
                    (proj1 scenario_targets) (proj2 scenario_targets)) "A").
    reflexivity.
  - apply (proj2 (get_version_from_ref_without_dangling scenario "nowhere"
                    (proj1 scenario_targets) (proj2 scenario_targets))).
    reflexivity.
Defined.

(** X3. On a document whose branch and tag targets are all stored, a
    resolved name resolves to itself: resolving twice is resolving once. *)
Theorem resolve_ref_idempotent (vg : Versioning) (ref n : string) :
  targets_present vg (json_branches vg) ->
  targets_present vg (json_tags vg) ->
  resolve_ref vg ref = Ok n ->
  resolve_ref vg n = Ok n.
Proof.
  intros Hb Ht Hres. apply resolve_ref_version.
  exact (resolve_ref_is_stored vg ref n Hb Ht Hres).
Qed.

Lemma resolve_ref_idempotent_witness : resolve_ref scenario "B" = Ok "B".
Proof.
  apply (resolve_ref_idempotent scenario "main" "B"
           (proj1 scenario_targets) (proj2 scenario_targets)).
  reflexivity.
Defined.

(** X4. A version returned by [get_version_from_ref] is a view of stored
    data: it is the view [versions] holds under its own name, that name is
    what [resolve_ref] gives for the reference, and the store has data for
    it, so that its accessors can be read. *)
Theorem get_version_from_ref_live (vg : Versioning) (ref : string) (v : Version) :
  get_version_from_ref vg ref = Ok v ->
  resolve_ref vg ref = Ok (Version.name v) /\
  Dict.get (Version.name v) (versions vg) = Some v /\
  exists data,
    Version.deref vg v = Some data /\
    Dict.get (Version.name v) (json_versions vg) = Some data.
Proof.
  unfold get_version_from_ref. intros H.
  destruct (resolve_ref vg ref) as [n | e] eqn:Hres; simpl in H; [| discriminate].
  unfold Dict.getitem in H.
  destruct (Dict.get n (versions vg)) as [v' |] eqn:Hget; [| discriminate].
  injection H as ->.
  pose proof Hget as Hget'. rewrite versions_get in Hget'.
  destruct (Dict.get n (json_versions vg)) as [data |] eqn:Hdata;
    simpl in Hget'; [| discriminate].
  injection Hget' as <-. simpl.
  split; [reflexivity | split; [exact Hget |]].
  exists data. split; [exact Hdata | exact Hdata].
Qed.

Lemma get_version_from_ref_live_witness :
  resolve_ref scenario "main" = Ok (Version.name (stored_view "B")) /\
  Dict.get (Version.name (stored_view "B")) (versions scenario)
  = Some (stored_view "B") /\
  exists data,
    Version.deref scenario (stored_view "B") = Some data /\
    Dict.get (Version.name (stored_view "B")) (json_versions scenario)
    = Some data.
Proof.
  apply (get_version_from_ref_live scenario "main" (stored_view "B")).
  reflexivity.
Defined.

(** ** More on the reverse indices *)

Lemma index_value (vg : Versioning) (refs : dict string) :
  (forall k n, In (k, n) refs -> is_key n (json_versions vg)) ->
  comprehension (index_entry vg) refs
  = Ok (map (fun kj => (fst kj, stored_view (snd kj))) refs).
Proof.
  intros Hall. apply comprehension_ok. intros [k n] Hin.
  apply entry_present. simpl. now apply (Hall k n).
Qed.

Lemma names_pointing_at (s : string) (refs : dict string) :
  map fst
      (filter (fun bv : string * Version => String.eqb (Version.name (snd bv)) s)
              (map (fun kj => (fst kj, stored_view (snd kj))) refs))
  = map fst (filter (fun kj => String.eqb (snd kj) s) refs).
Proof.
  induction refs as [| [k n] rest IH]; simpl.
  - reflexivity.
  - destruct (String.eqb n s); simpl; now rewrite IH.
Qed.

Lemma dict_get_of_In {A : Type} (k : string) (a : A) (d : dict A) :
  NoDup (Dict.keys d) -> In (k, a) d -> Dict.get k d = Some a.
Proof.
  unfold Dict.keys.
  induction d as [| [k' a'] rest IH]; simpl; intros Hnd Hin.
  - contradiction.
  - inversion Hnd as [| ? ? Hnotin Hnd']; subst.
    destruct Hin as [[= -> ->] | Hin].
    + now rewrite String.eqb_refl.
    + destruct (String.eqb_spec k k') as [-> | _].
      * exfalso. apply Hnotin. apply in_map_iff. now exists (k', a).
      * now apply IH.
Qed.

Lemma pointing_at_In (s b : string) (refs : dict string) :
  In b (map fst (filter (fun kj => String.eqb (snd kj) s) refs)) <->
  In (b, s) refs.
Proof.
  rewrite in_map_iff. split.
  - intros [[k n] [Hk Hin]]. simpl in Hk. subst k.
    apply filter_In in Hin. destruct Hin as [Hin Heq]. simpl in Heq.
    apply String.eqb_eq in Heq. now subst n.
  - intros Hin. exists (b, s). split; [reflexivity |].
    apply filter_In. split; [exact Hin |]. simpl. apply String.eqb_refl.
Qed.

Lemma version_labels_are_reverse_index_helper (vg : Versioning) (self : Version) :
  ((forall b n, In (b, n) (json_branches vg) -> is_key n (json_versions vg)) ->
   Version.branches vg self
   = Ok (map fst (filter (fun kj => String.eqb (snd kj) (Version.name self))
                         (json_branches vg)))) /\
  ((forall t n, In (t, n) (json_tags vg) -> is_key n (json_versions vg)) ->
   Version.tags vg self
   = Ok (map fst (filter (fun kj => String.eqb (snd kj) (Version.name self))
                         (json_tags vg)))).
Proof.
  split; intros Hall.
  - unfold Version.branches, Versioning.branches.
    rewrite (index_value vg _ Hall). simpl.
    f_equal. apply names_pointing_at.
  - unfold Version.tags, Versioning.tags.
    rewrite (index_value vg _ Hall). simpl.
    f_equal. apply names_pointing_at.
Qed.

(** X5. On a document whose branch targets are all stored, the [branches]
    list of a version is the names of the branches whose stored target is
    the version's name, in the order of the document, and nothing else; the
    same holds of [tags]. *)
Theorem version_labels_are_reverse_index (vg : Versioning) (self : Version) :
  ((forall b n, In (b, n) (json_branches vg) -> is_key n (json_versions vg)) ->
   Version.branches vg self
   = Ok (map fst (filter (fun kj => String.eqb (snd kj) (Version.name self))
                         (json_branches vg)))) /\
  ((forall t n, In (t, n) (json_tags vg) -> is_key n (json_versions vg)) ->
   Version.tags vg self
   = Ok (map fst (filter (fun kj => String.eqb (snd kj) (Version.name self))
                         (json_tags vg)))).
Proof. exact (version_labels_are_reverse_index_helper vg self). Qed.

Lemma shadowed_branches_stored (b n : string) :
  In (b, n) (json_branches shadowed) -> is_key n (json_versions shadowed).
Proof.
  simpl. intros [[= <- <-] | [[= <- <-] | []]]; unfold is_key; simpl; auto.
Qed.

Lemma shadowed_tags_stored (t n : string) :
  In (t, n) (json_tags shadowed) -> is_key n (json_versions shadowed).
Proof.
  simpl. intros [[= <- <-] | [[= <- <-] | []]]; unfold is_key; simpl; auto.
Qed.

Lemma version_labels_are_reverse_index_witness :
  Version.branches shadowed (stored_view "B") = Ok ["main"; "A"] /\
  Version.tags shadowed (stored_view "A") = Ok ["v1"; "main"].
Proof.
  split.
  - apply (proj1 (version_labels_are_reverse_index shadowed (stored_view "B"))).
    exact shadowed_branches_stored.
  - apply (proj2 (version_labels_are_reverse_index shadowed (stored_view "A"))).
    exact shadowed_tags_stored.
Defined.

(** X6. On a document with unique branch names whose branch targets are
    all stored, a name listed in the [branches] of a version that is not
    itself a version name resolves back to that version's name; for a name
    listed in its [tags] the name must also not be a branch name. *)
Theorem listed_label_resolves_back (vg : Versioning) (self : Version) :
  (forall names b,
      NoDup (Dict.keys (json_branches vg)) ->
      (forall b' n, In (b', n) (json_branches vg) -> is_key n (json_versions vg)) ->
      Version.branches vg self = Ok names ->
      In b names ->
      ~ is_key b (json_versions vg) ->
      resolve_ref vg b = Ok (Version.name self)) /\
  (forall names t,
      NoDup (Dict.keys (json_tags vg)) ->
      (forall t' n, In (t', n) (json_tags vg) -> is_key n (json_versions vg)) ->
      Version.tags vg self = Ok names ->
      In t names ->
      ~ is_key t (json_versions vg) ->
      ~ is_key t (json_branches vg) ->
      resolve_ref vg t = Ok (Version.name self)).
Proof.
  split.
  - intros names b Hnd Hall Hnames Hin Hv.
    rewrite (proj1 (version_labels_are_reverse_index_helper vg self) Hall) in Hnames.
    injection Hnames as <-. apply pointing_at_In in Hin.
    apply resolve_ref_branch; [exact Hv |].
    now apply dict_get_of_In.
  - intros names t Hnd Hall Hnames Hin Hv Hb.
    rewrite (proj2 (version_labels_are_reverse_index_helper vg self) Hall) in Hnames.
    injection Hnames as <-. apply pointing_at_In in Hin.
    apply resolve_ref_tag; [exact Hv | exact Hb |].
    now apply dict_get_of_In.
Qed.

Lemma listed_label_resolves_back_witness :
  resolve_ref scenario "main" = Ok (Version.name (stored_view "B")) /\
  resolve_ref scenario "v1" = Ok (Version.name (stored_view "A")).
Proof.
  split.
  - apply (proj1 (listed_label_resolves_back scenario (stored_view "B"))
             ["main"] "main").
    + repeat constructor. simpl. tauto.
    + simpl. intros b' n [[= <- <-] | []]. unfold is_key. simpl. auto.
    + reflexivity.
    + simpl. auto.
    + apply not_key_of_get_none. reflexivity.
  - apply (proj2 (listed_label_resolves_back scenario (stored_view "A"))
             ["v1"] "v1").
    + repeat constructor. simpl. tauto.
    + simpl. intros t' n [[= <- <-] | []]. unfold is_key. simpl. auto.
    + reflexivity.
    + simpl. auto.
    + apply not_key_of_get_none. reflexivity.
    + apply not_key_of_get_none. reflexivity.
Defined.

(** ** More on the message setter *)

Section DictRewrites.
Context {A : Type}.
Implicit Types (k : string) (d : dict A).

Lemma dict_setitem_setitem k a b d :
  Dict.setitem k b (Dict.setitem k a d) = Dict.setitem k b d.
Proof.
  induction d as [| [k' a'] rest IH]; simpl.
  - now rewrite String.eqb_refl.
  - destruct (String.eqb k k') eqn:E; simpl; rewrite E;
      [reflexivity | now rewrite IH].
Qed.

Lemma dict_setitem_stored k a d :
  Dict.get k d = Some a -> Dict.setitem k a d = d.
Proof.
  induction d as [| [k' a'] rest IH]; simpl.
  - discriminate.
  - destruct (String.eqb k k').
    + now intros [= ->].
    + intros H. now rewrite IH.
Qed.

Lemma dict_keys_setitem k a d :
  Dict.keys (Dict.setitem k a d)
  = if Dict.contains k d then Dict.keys d else (Dict.keys d ++ [k])%list.
Proof.
  unfold Dict.keys, Dict.contains.
  induction d as [| [k' a'] rest IH]; simpl.
  - reflexivity.
  - destruct (String.eqb k k'); simpl; [reflexivity |].
    rewrite IH. now destruct (Dict.get k rest).
Qed.

Lemma dict_update_update k (f g : A -> A) d :
  Dict.update k f (Dict.update k g d) = Dict.update k (fun a => f (g a)) d.
Proof.
  induction d as [| [k' a'] rest IH]; simpl.
  - reflexivity.
  - destruct (String.eqb k k') eqn:E; simpl; rewrite E;
      [reflexivity | now rewrite IH].
Qed.

Lemma dict_update_ext k (f g : A -> A) d :
  (forall a, f a = g a) -> Dict.update k f d = Dict.update k g d.
Proof.
  intros Hfg. induction d as [| [k' a'] rest IH]; simpl.
  - reflexivity.
  - destruct (String.eqb k k'); [now rewrite Hfg | now rewrite IH].
Qed.

Lemma dict_update_fixed k (f : A -> A) d a :
  Dict.get k d = Some a -> f a = a -> Dict.update k f d = d.
Proof.
  intros Hget Hf. induction d as [| [k' a'] rest IH]; simpl in *.
  - reflexivity.
  - destruct (String.eqb k k').
    + injection Hget as ->. now rewrite Hf.
    + now rewrite IH.
Qed.

End DictRewrites.

(** X7. Of two assignments to the [message] of the same version only the
    second is left in the document. *)
Theorem set_message_last_write_wins
  (vg : Versioning) (self : Version) (first second : json) :
  Version.set_message (Version.set_message vg self first) self second
  = Version.set_message vg self second.
Proof.
  unfold Version.set_message. simpl. f_equal.
  rewrite dict_update_update. apply dict_update_ext.
  intros data. apply dict_setitem_setitem.
Qed.

(** X8. Assigning to [message] the value it already reads leaves the whole
    document as it is. *)
Theorem set_message_read_back
  (vg : Versioning) (self : Version) (value : json) :
  Version.message vg self = Some (Ok value) ->
  Version.set_message vg self value = vg.
Proof.
  unfold Version.message, Version.deref, Dict.getitem. intros H.
  destruct (Dict.get (_json self) (json_versions vg)) as [data |] eqn:Hd;
    simpl in H; [| discriminate].
  destruct (Dict.get "message" data) as [m |] eqn:Hm; [| discriminate].
  injection H as ->.
  unfold Version.set_message.
  rewrite (dict_update_fixed _ _ _ data Hd (dict_setitem_stored _ _ _ Hm)).
  now destruct vg.
Qed.

Lemma set_message_read_back_witness :
  Version.set_message scenario (stored_view "B") (JStr "second") = scenario.
Proof.
  apply (set_message_read_back scenario (stored_view "B") (JStr "second")).
  reflexivity.
Defined.

(** X9. Assigning a [message] changes nothing about references: every
    reference resolves as before, to the same view, and the branch and tag
    mappings and every version's [branches] and [tags] are as before. *)
Theorem set_message_keeps_references
  (vg : Versioning) (self : Version) (value : json) :
  (forall ref,
      resolve_ref (Version.set_message vg self value) ref = resolve_ref vg ref) /\
  (forall ref,
      get_version_from_ref (Version.set_message vg self value) ref
      = get_version_from_ref vg ref) /\
  Versioning.branches (Version.set_message vg self value) = Versioning.branches vg /\
  Versioning.tags (Version.set_message vg self value) = Versioning.tags vg /\
  (forall v,
      Version.branches (Version.set_message vg self value) v
      = Version.branches vg v) /\
  (forall v,
      Version.tags (Version.set_message vg self value) v = Version.tags vg v).
Proof.
  pose proof (set_message_versions vg self value) as Hv.
  assert (Hres : forall ref,
             resolve_ref (Version.set_message vg self value) ref
             = resolve_ref vg ref).
  { intros ref. unfold resolve_ref. now rewrite Hv. }
  assert (Hb : Versioning.branches (Version.set_message vg self value)
               = Versioning.branches vg).
  { unfold Versioning.branches, index_entry. now rewrite Hv. }
  assert (Ht : Versioning.tags (Version.set_message vg self value)
               = Versioning.tags vg).
  { unfold Versioning.tags, index_entry. now rewrite Hv. }
  split; [exact Hres |].
  split.
  { intros ref. unfold get_version_from_ref. now rewrite Hres, Hv. }
  split; [exact Hb |].
  split; [exact Ht |].
  split; intros v.
  - unfold Version.branches. now rewrite Hb.
  - unfold Version.tags. now rewrite Ht.
Qed.

Lemma set_message_other_deref
  (vg : Versioning) (self other : Version) (value : json) :
  _json other <> _json self ->
  Version.deref (Version.set_message vg self value) other = Version.deref vg other.
Proof.
  intros Hne. unfold Version.deref, Version.set_message. simpl.
  now apply dict_get_update_other.
Qed.

(** X10. Assigning the [message] of one version is seen through every view
    of that version and through no view of another one: a view of the same
    stored data reads the new message, and a view of other stored data
    reads its message, author, date, [has_parents] and parents as before. *)
Theorem set_message_other_views
  (vg : Versioning) (self other : Version) (data : dict json) (value : json) :
  Version.deref vg self = Some data ->
  (_json other = _json self ->
   Version.message (Version.set_message vg self value) other = Some (Ok value)) /\
  (_json other <> _json self ->
   Version.message (Version.set_message vg self value) other
     = Version.message vg other /\
   Version.author (Version.set_message vg self value) other
     = Version.author vg other /\
   Version.date (Version.set_message vg self value) other
     = Version.date vg other /\
   Version.has_parents (Version.set_message vg self value) other
     = Version.has_parents vg other /\
   Version.parents (Version.set_message vg self value) other
     = Version.parents vg other).
Proof.
  intros Hd. split.
  - intros Heq. unfold Version.message, Version.deref.
    rewrite Heq.
    pose proof (set_message_deref vg self data value Hd) as Hd'.
    unfold Version.deref in Hd'. rewrite Hd'. simpl.
    unfold Dict.getitem. now rewrite dict_get_setitem_same.
  - intros Hne.
    pose proof (set_message_other_deref vg self other value Hne) as Ho.
    assert (Hhas : Version.has_parents (Version.set_message vg self value) other
                   = Version.has_parents vg other).
    { unfold Version.has_parents. now rewrite Ho. }
    split; [unfold Version.message; now rewrite Ho |].
    split; [unfold Version.author; now rewrite Ho |].
    split; [unfold Version.date; now rewrite Ho |].
    split; [exact Hhas |].
    unfold Version.parents. rewrite Hhas, Ho.
    now rewrite set_message_versions.
Qed.

Lemma set_message_other_views_witness :
  Version.message (Version.set_message scenario (stored_view "B") (JStr "amended"))
                  {| _json := "B"; _version_name := "alias" |}
  = Some (Ok (JStr "amended")) /\
  Version.message (Version.set_message scenario (stored_view "B") (JStr "amended"))
                  (stored_view "A")
  = Version.message scenario (stored_view "A").
Proof.
  pose proof (set_message_other_views scenario (stored_view "B")) as H.
  split.
  - apply (proj1 (H {| _json := "B"; _version_name := "alias" |} version_B
                    (JStr "amended") eq_refl)).
    reflexivity.
  - apply (proj2 (H (stored_view "A") version_B (JStr "amended") eq_refl)).
    discriminate.
Defined.

(** X11. Assigning a [message] keeps the order of the document: the
    versions stay in their order, and in the stored data of the version the
    fields stay in their order, with "message" added at the end when the
    data had none. *)
Theorem set_message_keeps_order
  (vg : Versioning) (self : Version) (data : dict json) (value : json) :
  Version.deref vg self = Some data ->
  Dict.keys (json_versions (Version.set_message vg self value))
  = Dict.keys (json_versions vg) /\
  exists data',
    Version.deref (Version.set_message vg self value) self = Some data' /\
    Dict.keys data'
    = if Dict.contains "message" data then Dict.keys data
      else (Dict.keys data ++ ["message"])%list.
Proof.
  intros Hd. split.
  - unfold Version.set_message. simpl. apply dict_keys_update.
  - exists (Dict.setitem "message" value data).
    split; [now apply set_message_deref | apply dict_keys_setitem].
Qed.

Lemma set_message_keeps_order_witness :
  Dict.keys (json_versions
               (Version.set_message scenario (stored_view "A") (JStr "amended")))
  = Dict.keys (json_versions scenario) /\
  exists data',
    Version.deref (Version.set_message scenario (stored_view "A") (JStr "amended"))
                  (stored_view "A") = Some data' /\
    Dict.keys data'
    = if Dict.contains "message" version_A then Dict.keys version_A
      else (Dict.keys version_A ++ ["message"])%list.
Proof.
  apply (set_message_keeps_order scenario (stored_view "A") version_A
           (JStr "amended")).
  reflexivity.
Defined.

(** ** Parents that are not a list *)

(** X12. When the stored "parents" of a version is null, a boolean or a
    number, [has_parents] answers true and [parents] raises [TypeError]. *)
Theorem parents_of_scalar_raises
  (vg : Versioning) (self : Version) (data : dict json) (stored : json) :
  Version.deref vg self = Some data ->
  Dict.get "parents" data = Some stored ->
  stored = JNull \/ (exists b, stored = JBool b) \/ (exists l, stored = JNum l) ->
  Version.has_parents vg self = Some true /\
  Version.parents vg self = Some (Raise TypeError).
Proof.
  intros Hd Hp Hscalar.
  assert (Hhas : Version.has_parents vg self = Some true).
  { rewrite (has_parents_spec vg self data Hd).
    now rewrite (dict_get_contains _ _ _ Hp). }
  split; [exact Hhas |].
  unfold Version.parents. rewrite Hhas, Hd. simpl.
  rewrite (dict_getitem_some _ _ _ Hp). simpl.
  destruct Hscalar as [-> | [[b ->] | [l ->]]]; reflexivity.
Qed.

Lemma parents_of_scalar_raises_witness :
  Version.has_parents null_parents (stored_view "N") = Some true /\
  Version.parents null_parents (stored_view "N") = Some (Raise TypeError).
Proof.
  apply (parents_of_scalar_raises null_parents (stored_view "N") version_N JNull).
  - reflexivity.
  - reflexivity.
  - now left.
Defined.

(** ** The text of a version *)

Lemma filter_keeps_other_keys {A : Type} (k : string) (d : dict A) :
  ~ is_key k d ->
  filter (fun kv => negb (String.eqb k (fst kv))) d = d.
Proof.
  unfold is_key, Dict.keys.
  induction d as [| [k' a] rest IH]; simpl; intros H.
  - reflexivity.
  - destruct (String.eqb_spec k k') as [-> | Hne]; simpl.
    + exfalso. apply H. now left.
    + rewrite IH; [reflexivity |]. intros Hin. apply H. now right.
Qed.

Lemma dict_delitem_present {A : Type} (k : string) (d : dict A) :
  NoDup (Dict.keys d) ->
  is_key k d ->
  dict_delitem k d = Ok (filter (fun kv => negb (String.eqb k (fst kv))) d).
Proof.
  unfold is_key, Dict.keys.
  induction d as [| [k' a] rest IH]; simpl; intros Hnd Hin.
  - contradiction.
  - inversion Hnd as [| ? ? Hnotin Hnd']; subst.
    destruct (String.eqb_spec k k') as [-> | Hne]; simpl.
    + now rewrite filter_keeps_other_keys.
    + destruct Hin as [Heq | Hin]; [congruence |].
      now rewrite (IH Hnd' Hin).
Qed.

Lemma dict_delitem_absent {A : Type} (k : string) (d : dict A) :
  ~ is_key k d -> dict_delitem k d = Raise (KeyError (JStr k)).
Proof.
  unfold is_key, Dict.keys.
  induction d as [| [k' a] rest IH]; simpl; intros H.
  - reflexivity.
  - destruct (String.eqb_spec k k') as [-> | Hne].
    + exfalso. apply H. now left.
    + rewrite IH; [reflexivity |]. intros Hin. apply H. now right.
Qed.

(** X13. The text of a version is the text of its stored data with the
    "objects" entry, and only that entry, left out; for a version whose
    stored data has no "objects" entry it is a [KeyError] instead. *)
Theorem version_repr_leaves_objects_out
  (w : World) (vg : Versioning) (self : Version) (data : dict json) :
  Version.deref vg self = Some data ->
  (NoDup (Dict.keys data) ->
   is_key "objects" data ->
   Version_repr w vg self
   = Some (Ok (py_str w
                 (filter (fun kv => negb (String.eqb "objects" (fst kv))) data)))) /\
  (~ is_key "objects" data ->
   Version_repr w vg self = Some (Raise (KeyError (JStr "objects")))).
Proof.
  intros Hd. unfold Version_repr. rewrite Hd. simpl. split.
  - intros Hnd Hin. now rewrite dict_delitem_present.
  - intros Hout. now rewrite dict_delitem_absent.
Qed.

Lemma version_repr_leaves_objects_out_witness :
  Version_repr sample_world scenario (stored_view "B")
  = Some (Ok "author, message, date, parents") /\
  Version_repr sample_world bare_doc (stored_view "bare")
  = Some (Raise (KeyError (JStr "objects"))).
Proof.
  split.
  - apply (proj1 (version_repr_leaves_objects_out sample_world scenario
                    (stored_view "B") version_B eq_refl)).
    + repeat constructor; simpl; intuition discriminate.
    + apply (is_key_of_get_some "objects" _ (JObj [])). reflexivity.
  - apply (proj2 (version_repr_leaves_objects_out sample_world bare_doc
                    (stored_view "bare") [("author", JStr "ann")] eq_refl)).
    apply not_key_of_get_none. reflexivity.
Defined.

(** ** The script *)

Ltac run_main :=
  unfold main, dispatch, opening; cbn;
  repeat (match goal with
          | H : files _ _ = _ |- _ => rewrite H
          | H : json_contains _ _ = _ |- _ => rewrite H
          | H : String.eqb _ _ = _ |- _ => rewrite H
          | H : get_command _ _ _ = _ |- _ => rewrite H
          end; cbn).

(** X14. With no file name, or with a file name and no command, the script
    prints the one line that asks for what is missing and quits: no file
    is opened and no command is looked for. *)
Theorem main_asks_for_arguments (w : World) (argv : list string) :
  (length argv < 2 ->
   main w argv = ([Print "Please provide a (versioned) CityJSON file"], Halt Quit)) /\
  (length argv = 2 ->
   main w argv = ([Print "Please provide a command."], Halt Quit)).
Proof.
  destruct argv as [| prog [| f [| name rest]]]; cbn; split; intros H;
    try reflexivity; try lia.
Qed.

Lemma main_asks_for_arguments_witness :
  main sample_world ["cjv.py"]
  = ([Print "Please provide a (versioned) CityJSON file"], Halt Quit) /\
  main sample_world ["cjv.py"; "city.json"]
  = ([Print "Please provide a command."], Halt Quit).
Proof.
  split.
  - apply (proj1 (main_asks_for_arguments sample_world ["cjv.py"])).
    simpl. lia.
  - apply (proj2 (main_asks_for_arguments sample_world ["cjv.py"; "city.json"])).
    reflexivity.
Defined.

(** The whole run of the script on a loaded, versioned document, by the
    command name and the arguments that follow it. *)
Lemma main_on_versioned
  (w : World) (prog f name : string) (rest : list string) (j : json) :
  files w f = Json j ->
  json_contains "versioning" j = Ok true ->
  main w (prog :: f :: name :: rest)
  = if String.eqb name "log" then
      let args := match rest with
                  | [] => [("citymodel", j)]
                  | ref :: _ => [("citymodel", j); ("ref", JStr ref)]
                  end in
      ((opening w f ++ fst (dispatch w name args))%list,
       snd (dispatch w name args))
    else if String.eqb name "checkout" then
      match rest with
      | version_name :: output_file :: _ =>
          let args := [("citymodel", j); ("version_name", JStr version_name);
                       ("output_file", JStr output_file)] in
          ((opening w f ++ fst (dispatch w name args))%list,
           snd (dispatch w name args))
      | _ => (opening w f, Halt (Raised (IndexError "list index out of range")))
      end
    else
      ((opening w f ++ fst (dispatch w name [("citymodel", j)]))%list,
       snd (dispatch w name [("citymodel", j)])).
Proof.
  intros Hf Hv.
  destruct (String.eqb name "log") eqn:Hlog;
    [| destruct (String.eqb name "checkout") eqn:Hco].
  - destruct rest as [| ref more]; run_main;
      match goal with |- context [get_command w name ?a] =>
        destruct (get_command w name a) end; reflexivity.
  - destruct rest as [| v [| o more]]; run_main; try reflexivity;
      match goal with |- context [get_command w name ?a] =>
        destruct (get_command w name a) end; reflexivity.
  - run_main.
    match goal with |- context [get_command w name ?a] =>
      destruct (get_command w name a) end; reflexivity.
Qed.

(** The whole run of the script when the document is not loaded or is not
    versioned. *)
Lemma main_on_other
  (w : World) (prog f name : string) (rest : list string) :
  main w (prog :: f :: name :: rest)
  = match files w f with
    | NoFile => ([Print ("Opening " ++ f ++ "...")], Halt OpenFailed)
    | NotJson =>
        ([Print ("Opening " ++ f ++ "..."); Open f;
          Print "Oops! This is not a valid JSON file!"], Halt Quit)
    | Json j =>
        match json_contains "versioning" j with
        | Raise e => (opening w f, Halt (Raised e))
        | Ok false =>
            ((opening w f
              ++ [Print (Fore_RED w
                         ++ "The file provided is not a versioned CityJSON!")])%list,
             Halt Quit)
        | Ok true => main w (prog :: f :: name :: rest)
        end
    end.
Proof.
  destruct (files w f) as [| | j] eqn:Hf; [run_main; reflexivity .. |].
  destruct (json_contains "versioning" j) as [[|] | e] eqn:Hv;
    [reflexivity | run_main; reflexivity ..].
Qed.

(** X15. On a loaded, versioned document the command "log" is looked up
    with the document and, when a fourth argument is there, with it as
    "ref"; further arguments are not read.  The command found is executed;
    when there is none the script says so, naming None and not the command
    asked for, and quits. *)
Theorem main_log
  (w : World) (prog f : string) (rest : list string) (j : json) :
  files w f = Json j ->
  json_contains "versioning" j = Ok true ->
  (rest = [] ->
   main w (prog :: f :: "log" :: rest)
   = ((opening w f ++ fst (dispatch w "log" [("citymodel", j)]))%list,
      snd (dispatch w "log" [("citymodel", j)]))) /\
  (forall ref more,
      rest = ref :: more ->
      main w (prog :: f :: "log" :: rest)
      = ((opening w f
          ++ fst (dispatch w "log" [("citymodel", j); ("ref", JStr ref)]))%list,
         snd (dispatch w "log" [("citymodel", j); ("ref", JStr ref)]))).
Proof.
  intros Hf Hv.
  rewrite (main_on_versioned w prog f "log" rest j Hf Hv). cbn.
  split.
  - intros ->. reflexivity.
  - intros ref more ->. reflexivity.
Qed.

Lemma main_log_witness :
  main sample_world ["cjv.py"; "city.json"; "log"]
  = ((opening sample_world "city.json"
      ++ fst (dispatch sample_world "log"
                [("citymodel", versioned_citymodel)]))%list,
     snd (dispatch sample_world "log" [("citymodel", versioned_citymodel)])) /\
  main sample_world ["cjv.py"; "city.json"; "log"; "main"; "more"]
  = ((opening sample_world "city.json"
      ++ fst (dispatch sample_world "log"
                [("citymodel", versioned_citymodel); ("ref", JStr "main")]))%list,
     snd (dispatch sample_world "log"
            [("citymodel", versioned_citymodel); ("ref", JStr "main")])).
Proof.
  split.
  - apply (proj1 (main_log sample_world "cjv.py" "city.json" []
                    versioned_citymodel eq_refl eq_refl)).
    reflexivity.
  - apply (proj2 (main_log sample_world "cjv.py" "city.json" ["main"; "more"]
                    versioned_citymodel eq_refl eq_refl) "main" ["more"]).
    reflexivity.
Defined.

(** X16. On a loaded, versioned document the command "checkout" needs two
    more arguments: with both it is looked up with the document, the first
    as "version_name" and the second as "output_file"; with fewer the
    script stops on the uncaught [IndexError] of [sys.argv], after the file
    has been read and closed, and no command is looked up or executed. *)
Theorem main_checkout
  (w : World) (prog f : string) (rest : list string) (j : json) :
  files w f = Json j ->
  json_contains "versioning" j = Ok true ->
  (length rest < 2 ->
   main w (prog :: f :: "checkout" :: rest)
   = (opening w f, Halt (Raised (IndexError "list index out of range")))) /\
  (forall version_name output_file more,
      rest = version_name :: output_file :: more ->
      main w (prog :: f :: "checkout" :: rest)
      = ((opening w f
          ++ fst (dispatch w "checkout"
                    [("citymodel", j); ("version_name", JStr version_name);
                     ("output_file", JStr output_file)]))%list,
         snd (dispatch w "checkout"
                [("citymodel", j); ("version_name", JStr version_name);
                 ("output_file", JStr output_file)]))).
Proof.
  intros Hf Hv.
  rewrite (main_on_versioned w prog f "checkout" rest j Hf Hv). cbn.
  split.
  - intros Hlen. destruct rest as [| v [| o more]]; cbn in Hlen;
      [reflexivity | reflexivity | lia].
  - intros v o more ->. reflexivity.
Qed.

Lemma main_checkout_witness :
  main sample_world ["cjv.py"; "city.json"; "checkout"; "main"]
  = (opening sample_world "city.json",
     Halt (Raised (IndexError "list index out of range"))) /\
  main sample_world ["cjv.py"; "city.json"; "checkout"; "main"; "out.json"]
  = ((opening sample_world "city.json"
      ++ fst (dispatch sample_world "checkout"
                [("citymodel", versioned_citymodel);
                 ("version_name", JStr "main");
                 ("output_file", JStr "out.json")]))%list,
     snd (dispatch sample_world "checkout"
            [("citymodel", versioned_citymodel);
             ("version_name", JStr "main");
             ("output_file", JStr "out.json")])).
Proof.
  split.
  - apply (proj1 (main_checkout sample_world "cjv.py" "city.json" ["main"]
                    versioned_citymodel eq_refl eq_refl)).
    simpl. lia.
  - apply (proj2 (main_checkout sample_world "cjv.py" "city.json"
                    ["main"; "out.json"] versioned_citymodel eq_refl eq_refl)
             "main" "out.json" []).
    reflexivity.
Defined.

(** X17. For a command name other than "log" and "checkout" the arguments
    after the name are not read: the command is looked up with the
    document alone, and the run is the same whatever follows the name. *)
Theorem main_other_command
  (w : World) (prog f name : string) (rest : list string) (j : json) :
  files w f = Json j ->
  json_contains "versioning" j = Ok true ->
  name <> "log" ->
  name <> "checkout" ->
  main w (prog :: f :: name :: rest)
  = ((opening w f ++ fst (dispatch w name [("citymodel", j)]))%list,
     snd (dispatch w name [("citymodel", j)])) /\
  main w (prog :: f :: name :: rest) = main w [prog; f; name].
Proof.
  intros Hf Hv Hlog Hco.
  apply String.eqb_neq in Hlog, Hco.
  rewrite (main_on_versioned w prog f name rest j Hf Hv).
  rewrite (main_on_versioned w prog f name [] j Hf Hv).
  rewrite Hlog, Hco. split; reflexivity.
Qed.

Lemma main_other_command_witness :
  main sample_world ["cjv.py"; "city.json"; "status"; "-v"]
  = ((opening sample_world "city.json"
      ++ fst (dispatch sample_world "status"
                [("citymodel", versioned_citymodel)]))%list,
     snd (dispatch sample_world "status" [("citymodel", versioned_citymodel)])) /\
  main sample_world ["cjv.py"; "city.json"; "status"; "-v"]
  = main sample_world ["cjv.py"; "city.json"; "status"].
Proof.
  apply (main_other_command sample_world "cjv.py" "city.json" "status" ["-v"]
           versioned_citymodel); [reflexivity | reflexivity | | ];
    discriminate.
Defined.

Lemma dispatch_cases (w : World) (name : string) (args : dict json) :
  (exists c,
      get_command w name args = Some c /\
      dispatch w name args = ([Execute c], Next tt)) \/
  (get_command w name args = None /\
   dispatch w name args
   = ([Print "'None' is not a valid command. Please try one of: log."],
      Halt Quit)).
Proof.
  unfold dispatch. destruct (get_command w name args) as [c |].
  - left. now exists c.
  - now right.
Qed.

(** The run on a loaded, versioned document ends in a dispatch with the
    document among the arguments, or in the [IndexError] of "checkout". *)
Lemma main_on_versioned_shape
  (w : World) (prog f name : string) (rest : list string) (j : json) :
  files w f = Json j ->
  json_contains "versioning" j = Ok true ->
  (exists args,
      Dict.get "citymodel" args = Some j /\
      main w (prog :: f :: name :: rest)
      = ((opening w f ++ fst (dispatch w name args))%list,
         snd (dispatch w name args))) \/
  main w (prog :: f :: name :: rest)
  = (opening w f, Halt (Raised (IndexError "list index out of range"))).
Proof.
  intros Hf Hv.
  rewrite (main_on_versioned w prog f name rest j Hf Hv).
  destruct (String.eqb name "log");
    [| destruct (String.eqb name "checkout")].
  - left. destruct rest; eexists; (split; [| reflexivity]); reflexivity.
  - destruct rest as [| v [| o more]]; [now right | now right |].
    left. eexists. split; [| reflexivity]. reflexivity.
  - left. eexists. split; [| reflexivity]. reflexivity.
Qed.

(** X18. A command is executed only at the end of a complete run: the
    script was given a file name and a command name, the file was opened,
    parsed and closed, the document passed the test for "versioning", and
    the command is the one the factory gave for that name with the
    document among its arguments.  Nothing is executed otherwise. *)
Theorem main_executes_only_on_versioned
  (w : World) (argv : list string) (c : command w) :
  In (Execute c) (fst (main w argv)) ->
  exists prog f name rest j args,
    argv = prog :: f :: name :: rest /\
    files w f = Json j /\
    json_contains "versioning" j = Ok true /\
    Dict.get "citymodel" args = Some j /\
    get_command w name args = Some c /\
    main w argv = ((opening w f ++ [Execute c])%list, Next tt).
Proof.
  destruct argv as [| prog [| f [| name rest]]];
    try (cbn; intros [H | []]; discriminate H).
  rewrite main_on_other.
  destruct (files w f) as [| | j] eqn:Hf.
  - cbn. intros [H | []]. discriminate H.
  - cbn. intros [H | [H | [H | []]]]; discriminate H.
  - destruct (json_contains "versioning" j) as [[|] | e] eqn:Hv.
    + intros Hin.
      destruct (main_on_versioned_shape w prog f name rest j Hf Hv)
        as [[args [Hargs Hrun]] | Hrun].
      * rewrite Hrun in Hin |- *.
        destruct (dispatch_cases w name args) as [[c' [Hget Hd]] | [_ Hd]];
          rewrite Hd in Hin |- *; cbn in Hin.
        -- destruct Hin as [H | [H | [H | [H | []]]]]; try discriminate H.
           injection H as ->.
           exists prog, f, name, rest, j, args. now repeat split.
        -- destruct Hin as [H | [H | [H | [H | []]]]]; discriminate H.
      * rewrite Hrun in Hin. cbn in Hin.
        destruct Hin as [H | [H | [H | []]]]; discriminate H.
    + cbn. intros [H | [H | [H | [H | []]]]]; discriminate H.
    + cbn. intros [H | [H | [H | []]]]; discriminate H.
Qed.

Lemma main_executes_only_on_versioned_witness :
  exists prog f name rest j args,
    ["cjv.py"; "city.json"; "log"; "main"] = prog :: f :: name :: rest /\
    files sample_world f = Json j /\
    json_contains "versioning" j = Ok true /\
    Dict.get "citymodel" args = Some j /\
    get_command sample_world name args
    = Some ("log", [("citymodel", versioned_citymodel); ("ref", JStr "main")]) /\
    main sample_world ["cjv.py"; "city.json"; "log"; "main"]
    = ((opening sample_world f
        ++ [@Execute sample_world
              ("log", [("citymodel", versioned_citymodel);
                       ("ref", JStr "main")])])%list,
       Next tt).
Proof.
  apply (main_executes_only_on_versioned sample_world
           ["cjv.py"; "city.json"; "log"; "main"]
           (("log", [("citymodel", versioned_citymodel); ("ref", JStr "main")])
            : command sample_world)).
  cbn. auto.
Defined.

Lemma main_loaded_trace
  (w : World) (prog f name : string) (rest : list string) (j : json) :
  files w f = Json j ->
  exists tail,
    fst (main w (prog :: f :: name :: rest)) = (opening w f ++ tail)%list /\
    (forall p, ~ In (Open p) tail) /\
    (forall p, ~ In (Close p) tail).
Proof.
  intros Hf. rewrite main_on_other, Hf.
  destruct (json_contains "versioning" j) as [[|] | e] eqn:Hv.
  - destruct (main_on_versioned_shape w prog f name rest j Hf Hv)
      as [[args [_ Hrun]] | Hrun]; rewrite Hrun; cbn [fst].
    + exists (fst (dispatch w name args)). split; [reflexivity |].
      destruct (dispatch_cases w name args) as [[c [_ Hd]] | [_ Hd]];
        rewrite Hd; cbn; split; intros p [H | []]; discriminate H.
    + exists []. rewrite app_nil_r. split; [reflexivity |].
      split; intros p [].
  - eexists. split; [reflexivity |].
    split; intros p [H | []]; discriminate H.
  - exists []. cbn [fst]. rewrite app_nil_r. split; [reflexivity |].
    split; intros p [].
Qed.

(** X19. In every run of the script the only file opened is the one named
    by the first argument, and only when a command name follows; it is
    opened unless [open] fails, and it is closed exactly when it parses as
    JSON: a file that does not parse is left open. *)
Theorem main_closes_file_iff_parsed (w : World) (argv : list string) (p : string) :
  (In (Open p) (fst (main w argv)) <->
   3 <= length argv /\ nth_error argv 1 = Some p /\ files w p <> NoFile) /\
  (In (Close p) (fst (main w argv)) <->
   3 <= length argv /\ nth_error argv 1 = Some p /\ exists j, files w p = Json j).
Proof.
  destruct argv as [| prog [| f [| name rest]]];
    try (cbn; split; split;
         [intros [H | []]; discriminate H | intros [H _]; lia
         | intros [H | []]; discriminate H | intros [H _]; lia]).
  destruct (files w f) as [| | j] eqn:Hf.
  - rewrite main_on_other, Hf. cbn. split; split.
    + intros [H | []]. discriminate H.
    + intros [_ [[= <-] H]]. contradiction.
    + intros [H | []]. discriminate H.
    + intros [_ [[= <-] [j H]]]. congruence.
  - rewrite main_on_other, Hf. cbn. split; split.
    + intros [H | [H | [H | []]]]; try discriminate H.
      injection H as <-. repeat split; [lia | congruence].
    + intros [_ [[= <-] _]]. auto.
    + intros [H | [H | [H | []]]]; discriminate H.
    + intros [_ [[= <-] [j H]]]. congruence.
  - destruct (main_loaded_trace w prog f name rest j Hf)
      as [tail [Htrace [Hopen Hclose]]].
    rewrite Htrace. cbn. split; split.
    + intros [H | [H | [H | Hin]]]; try discriminate H.
      * injection H as <-. repeat split; [lia | congruence].
      * exfalso. exact (Hopen p Hin).
    + intros [_ [[= <-] _]]. auto.
    + intros [H | [H | [H | Hin]]]; try discriminate H.
      * injection H as <-. repeat split; [lia |]. now exists j.
      * exfalso. exact (Hclose p Hin).
    + intros [_ [[= <-] _]]. auto.
Qed.

Lemma main_closes_file_iff_parsed_witness :
  In (Open "broken.json")
     (fst (main sample_world ["cjv.py"; "broken.json"; "log"])) /\
  ~ In (Close "broken.json")
       (fst (main sample_world ["cjv.py"; "broken.json"; "log"])).
Proof.
  pose proof (main_closes_file_iff_parsed sample_world
                ["cjv.py"; "broken.json"; "log"] "broken.json") as [Ho Hc].
  split.
  - apply Ho. repeat split; [simpl; lia | discriminate].
  - intros Hin. apply Hc in Hin. destruct Hin as [_ [_ [j Hj]]].
    discriminate Hj.
Defined.

(** X20. What the script does with a file it cannot use, whatever the
    command and its arguments: when [open] fails the run ends on that
    error after the line that announces the file; a file that is not JSON
    gives the line "Oops! ..." and the script quits; a document that does
    not hold "versioning" gives the line in red and the script quits; and a
    document that is a JSON null, boolean or number ends the run on the
    [TypeError] of the membership test. *)
Theorem main_unusable_file
  (w : World) (prog f name : string) (rest : list string) :
  (files w f = NoFile ->
   main w (prog :: f :: name :: rest)
   = ([Print ("Opening " ++ f ++ "...")], Halt OpenFailed)) /\
  (files w f = NotJson ->
   main w (prog :: f :: name :: rest)
   = ([Print ("Opening " ++ f ++ "..."); Open f;
       Print "Oops! This is not a valid JSON file!"], Halt Quit)) /\
  (forall j,
      files w f = Json j ->
      json_contains "versioning" j = Ok false ->
      main w (prog :: f :: name :: rest)
      = ((opening w f
          ++ [Print (Fore_RED w
                     ++ "The file provided is not a versioned CityJSON!")])%list,
         Halt Quit)) /\
  (forall j,
      files w f = Json j ->
      j = JNull \/ (exists b, j = JBool b) \/ (exists l, j = JNum l) ->
      main w (prog :: f :: name :: rest)
      = (opening w f, Halt (Raised TypeError))).
Proof.
  split; [| split; [| split]].
  - intros Hf. now rewrite main_on_other, Hf.
  - intros Hf. now rewrite main_on_other, Hf.
  - intros j Hf Hv. now rewrite main_on_other, Hf, Hv.
  - intros j Hf Hscalar. rewrite main_on_other, Hf.
    destruct Hscalar as [-> | [[b ->] | [l ->]]]; reflexivity.
Qed.

Lemma main_unusable_file_witness :
  main sample_world ["cjv.py"; "missing.json"; "log"]
  = ([Print "Opening missing.json..."], Halt OpenFailed) /\
  main sample_world ["cjv.py"; "broken.json"; "log"]
  = ([Print "Opening broken.json..."; Open "broken.json";
      Print "Oops! This is not a valid JSON file!"], Halt Quit) /\
  main sample_world ["cjv.py"; "plain.json"; "checkout"]
  = ((opening sample_world "plain.json"
      ++ [Print (Fore_RED sample_world
                 ++ "The file provided is not a versioned CityJSON!")])%list,
     Halt Quit) /\
  main sample_world ["cjv.py"; "number.json"; "log"]
  = (opening sample_world "number.json", Halt (Raised TypeError)).
Proof.
  split; [| split; [| split]].
  - apply (proj1 (main_unusable_file sample_world "cjv.py" "missing.json"
                    "log" [])).
    reflexivity.
  - apply (proj1 (proj2 (main_unusable_file sample_world "cjv.py" "broken.json"
                           "log" []))).
    reflexivity.
  - apply (proj1 (proj2 (proj2 (main_unusable_file sample_world "cjv.py"
                                  "plain.json" "checkout" [])))
             plain_citymodel); reflexivity.
  - apply (proj2 (proj2 (proj2 (main_unusable_file sample_world "cjv.py"
                                  "number.json" "log" [])))
             (JNum "42")).
    + reflexivity.
    + right. right. now exists "42".
Defined.

(** ** The document class *)

Lemma existsb_is_str (s : string) (items : list json) :
  existsb (is_str s) items = true <-> In (JStr s) items.
Proof.
  rewrite existsb_exists. split.
  - intros [x [Hin Hx]]. destruct x; try discriminate Hx.
    simpl in Hx. apply String.eqb_eq in Hx. now subst.
  - intros Hin. exists (JStr s). split; [exact Hin |].
    simpl. apply String.eqb_refl.
Qed.

(** X21. The script's test for "versioning" and the [versioning] property
    of the document class agree on a document that is a dict: the test
    passes exactly when the property has a value.  They differ on a
    document that is a JSON list: the test passes as soon as the list holds
    the string "versioning", while the property raises [TypeError] on
    anything that is not a dict. *)
Theorem versioning_test_and_property (citymodel : json) :
  (forall d,
      citymodel = JObj d ->
      (json_contains "versioning" citymodel = Ok true <->
       exists v, VersionedCityJSON.versioning citymodel = Ok v)) /\
  (forall items,
      citymodel = JArr items ->
      In (JStr "versioning") items ->
      json_contains "versioning" citymodel = Ok true) /\
  ((forall d, citymodel <> JObj d) ->
   VersionedCityJSON.versioning citymodel = Raise TypeError).
Proof.
  split; [| split].
  - intros d ->. unfold VersionedCityJSON.versioning. simpl.
    unfold Dict.contains, Dict.getitem.
    destruct (Dict.get "versioning" d) as [v |]; split.
    + intros _. now exists v.
    + reflexivity.
    + discriminate.
    + intros [v H]. discriminate H.
  - intros items -> Hin. simpl. f_equal. now apply existsb_is_str.
  - intros Hnot. destruct citymodel; try reflexivity.
    exfalso. now apply (Hnot members).
Qed.

Lemma versioning_test_and_property_witness :
  (exists v, VersionedCityJSON.versioning versioned_citymodel = Ok v) /\
  json_contains "versioning" (JArr [JStr "versioning"]) = Ok true /\
  VersionedCityJSON.versioning (JArr [JStr "versioning"]) = Raise TypeError.
Proof.
  split; [| split].
  - apply (proj1 (versioning_test_and_property versioned_citymodel) _ eq_refl).
    reflexivity.
  - apply (proj1 (proj2 (versioning_test_and_property (JArr [JStr "versioning"])))
             [JStr "versioning"] eq_refl).
    simpl. auto.
  - apply (proj2 (proj2 (versioning_test_and_property (JArr [JStr "versioning"])))).
    intros d H. discriminate H.
Defined.

(** X22. The constructor yields a document in three ways only: from None,
    the fresh document of [utils]; from a dict, that dict itself; from a
    path, what the file parses to, the file having been opened and closed.
    It touches no file otherwise, and a file that does not parse is left
    open with a [TypeError] raised. *)
Theorem init_yields_document (w : World) (file : file_argument) :
  (forall citymodel,
      snd (VersionedCityJSON.init w file) = Next citymodel ->
      (file = FileNone /\ citymodel = create_vcityjson w /\
       fst (VersionedCityJSON.init w file) = []) \/
      (exists d,
          file = FileDict d /\ citymodel = JObj d /\
          fst (VersionedCityJSON.init w file) = []) \/
      (exists path,
          file = FilePath path /\ files w path = Json citymodel /\
          fst (VersionedCityJSON.init w file) = [Open path; Close path])) /\
  (forall path,
      file = FilePath path ->
      files w path = NotJson ->
      VersionedCityJSON.init w file = ([Open path], Halt (Raised TypeError))).
Proof.
  split.
  - intros citymodel. destruct file as [| path | d |]; cbn.
    + intros [= <-]. left. now repeat split.
    + destruct (files w path) as [| | j] eqn:Hf; cbn; try discriminate.
      intros [= <-]. right. right. exists path. now repeat split.
    + intros [= <-]. right. left. exists d. now repeat split.
    + discriminate.
  - intros path -> Hf. cbn. now rewrite Hf.
Qed.

Lemma init_yields_document_witness :
  VersionedCityJSON.init sample_world (FilePath "broken.json")
  = ([Open "broken.json"], Halt (Raised TypeError)).
Proof.
  apply (proj2 (init_yields_document sample_world (FilePath "broken.json"))
           "broken.json"); reflexivity.
Defined.

(** ** The forward indices *)

Lemma dict_get_map_values {A B : Type} (g : A -> B) (k : string) (d : dict A) :
  Dict.get k (map (fun kj => (fst kj, g (snd kj))) d)
  = option_map g (Dict.get k d).
Proof.
  induction d as [| [k' a] rest IH]; simpl.
  - reflexivity.
  - destruct (String.eqb k k'); [reflexivity | exact IH].
Qed.

(** X23. On a document whose branch targets are all stored, the
    [branches] mapping of the document has the branch names of the
    document, in their order, and under each name the view of the version
    the branch points at; for a branch name that is not also a version
    name this is the version [get_version_from_ref] returns for it.  The
    same holds of the [tags] mapping, for a tag name that is neither a
    version name nor a branch name. *)
Theorem versioning_labels_are_views (vg : Versioning) :
  ((forall b n, In (b, n) (json_branches vg) -> is_key n (json_versions vg)) ->
   exists ix,
     Versioning.branches vg = Ok ix /\
     Dict.keys ix = Dict.keys (json_branches vg) /\
     (forall b n,
         Dict.get b (json_branches vg) = Some n ->
         Dict.get b ix = Some (stored_view n) /\
         (~ is_key b (json_versions vg) ->
          get_version_from_ref vg b = Ok (stored_view n)))) /\
  ((forall t n, In (t, n) (json_tags vg) -> is_key n (json_versions vg)) ->
   exists ix,
     Versioning.tags vg = Ok ix /\
     Dict.keys ix = Dict.keys (json_tags vg) /\
     (forall t n,
         Dict.get t (json_tags vg) = Some n ->
         Dict.get t ix = Some (stored_view n) /\
         (~ is_key t (json_versions vg) ->
          ~ is_key t (json_branches vg) ->
          get_version_from_ref vg t = Ok (stored_view n)))).
Proof.
  assert (Hin : forall (refs : dict string) k n,
             Dict.get k refs = Some n -> In (k, n) refs).
  { intros refs k n. induction refs as [| [k' n'] rest IH]; simpl.
    - discriminate.
    - destruct (String.eqb_spec k k') as [-> | _].
      + intros [= ->]. now left.
      + intros H. right. now apply IH. }
  split; intros Hall.
  - exists (map (fun kj => (fst kj, stored_view (snd kj))) (json_branches vg)).
    split; [exact (index_value vg _ Hall) |].
    split; [unfold Dict.keys; rewrite map_map; reflexivity |].
    intros b n Hget. split.
    + rewrite dict_get_map_values. now rewrite Hget.
    + intros Hv. unfold get_version_from_ref.
      rewrite (resolve_ref_branch vg b n Hv Hget). simpl.
      apply versions_getitem_present. apply (Hall b n). now apply Hin.
  - exists (map (fun kj => (fst kj, stored_view (snd kj))) (json_tags vg)).
    split; [exact (index_value vg _ Hall) |].
    split; [unfold Dict.keys; rewrite map_map; reflexivity |].
    intros t n Hget. split.
    + rewrite dict_get_map_values. now rewrite Hget.
    + intros Hv Hb. unfold get_version_from_ref.
      rewrite (resolve_ref_tag vg t n Hv Hb Hget). simpl.
      apply versions_getitem_present. apply (Hall t n). now apply Hin.
Qed.

Lemma versioning_labels_are_views_witness :
  exists ix,
    Versioning.branches shadowed = Ok ix /\
    Dict.keys ix = Dict.keys (json_branches shadowed) /\
    (forall b n,
        Dict.get b (json_branches shadowed) = Some n ->
        Dict.get b ix = Some (stored_view n) /\
        (~ is_key b (json_versions shadowed) ->
         get_version_from_ref shadowed b = Ok (stored_view n))).
Proof.
  apply (proj1 (versioning_labels_are_views shadowed)).
  exact shadowed_branches_stored.
Defined.

(** ** The substring test *)

Lemma prefix_iff (s t : string) :
  String.prefix s t = true <-> exists post, t = s ++ post.
Proof.
  revert t. induction s as [| c s IH]; intros t.
  - split; [intros _; now exists t | intros _; now destruct t].
  - destruct t as [| c' t]; simpl.
    + split; [discriminate | intros [post H]; discriminate H].
    + destruct (Ascii.ascii_dec c c') as [-> | Hne].
      * rewrite IH. split; intros [post H]; exists post.
        -- now rewrite H.
        -- now injection H.
      * split; [discriminate | intros [post H]]. injection H as H _.
        congruence.
Qed.

(** [is_substring] is the substring test: the needle occurs somewhere in
    the haystack. *)
Lemma is_substring_iff (needle hay : string) :
  is_substring needle hay = true <->
  exists pre post, hay = pre ++ needle ++ post.
Proof.
  induction hay as [| c hay IH].
  - change (is_substring needle "") with (String.prefix needle "" || false).
    rewrite orb_false_r, prefix_iff. split.
    + intros [post H]. now exists "", post.
    + intros [pre [post H]]. destruct pre; [| discriminate H].
      now exists post.
  - change (is_substring needle (String c hay))
      with (String.prefix needle (String c hay) || is_substring needle hay).
    rewrite orb_true_iff, prefix_iff, IH. split.
    + intros [[post H] | [pre [post H]]].
      * now exists "", post.
      * exists (String c pre), post. simpl. now rewrite H.
    + intros [pre [post H]]. destruct pre as [| c' pre]; simpl in H.
      * left. now exists post.
      * right. injection H as _ H. now exists pre, post.
Qed.
